(** * TG-WEB-INDEX: the TMDB aggregation pipeline of [tmdb.py]

    A shallow embedding of [src/tmdb.py].  Python values are an inductive
    type, a raised exception is the [Raise] branch of a small error monad,
    and the network and the IMDb client are an explicit [world] the
    coroutines read from.  The development follows the source function by
    function and keeps its names. *)

From Stdlib Require Import String Ascii List ZArith Lia Bool DecimalString.
Import ListNotations.

Local Open Scope string_scope.
Local Open Scope Z_scope.

(* ================================================================== *)
(** ** Python strings

    A Python [str] is modelled by [string], read as the sequence of its code
    points, each below 256. *)

Definition code (c : ascii) : N := N_of_ascii c.

Definition in_range (lo hi : N) (c : ascii) : bool :=
  (N.leb lo (code c) && N.leb (code c) hi)%bool.

(** [str.isspace] on one character: what [str.strip()] removes. *)
Definition isspace (c : ascii) : bool :=
  (in_range 9 13 c || in_range 28 32 c
   || N.eqb (code c) 133 || N.eqb (code c) 160)%bool.

Definition isdigit_ascii (c : ascii) : bool := in_range 48 57 c.

(** [str.isalnum] on one character. *)
Definition isalnum (c : ascii) : bool :=
  (in_range 48 57 c || in_range 65 90 c || in_range 97 122 c
   || N.eqb (code c) 170 || in_range 178 179 c || N.eqb (code c) 181
   || in_range 185 186 c || in_range 188 190 c
   || in_range 192 214 c || in_range 216 246 c || in_range 248 255 c)%bool.

Fixpoint str_filter (p : ascii -> bool) (s : string) : string :=
  match s with
  | EmptyString => EmptyString
  | String c t => if p c then String c (str_filter p t) else str_filter p t
  end.

Fixpoint str_forallb (p : ascii -> bool) (s : string) : bool :=
  match s with
  | EmptyString => true
  | String c t => (p c && str_forallb p t)%bool
  end.

Fixpoint str_existsb (p : ascii -> bool) (s : string) : bool :=
  match s with
  | EmptyString => false
  | String c t => (p c || str_existsb p t)%bool
  end.

Fixpoint lstrip (s : string) : string :=
  match s with
  | EmptyString => EmptyString
  | String c t => if isspace c then lstrip t else s
  end.

(** [rstrip]: a character is kept when it is not white space or when
    something is kept after it. *)
Fixpoint rstrip (s : string) : string :=
  match s with
  | EmptyString => EmptyString
  | String c t =>
      match rstrip t with
      | EmptyString => if isspace c then EmptyString else String c EmptyString
      | r => String c r
      end
  end.

(** [s.strip()]. *)
Definition py_strip (s : string) : string := rstrip (lstrip s).

(** [s[:n]]. *)
Fixpoint str_take (n : nat) (s : string) : string :=
  match n, s with
  | S k, String c t => String c (str_take k t)
  | _, _ => EmptyString
  end.

(** The characters of a string, as [for c in s] yields them. *)
Fixpoint chars (s : string) : list string :=
  match s with
  | EmptyString => []
  | String c t => String c EmptyString :: chars t
  end.

(** [needle in hay] for two strings. *)
Fixpoint is_substring (needle hay : string) : bool :=
  (prefix needle hay
   || match hay with
      | EmptyString => false
      | String _ t => is_substring needle t
      end)%bool.

(** [s.split(sep)] for a non-empty [sep], scanning left to right: [skip]
    counts the characters of a separator just matched that are still to be
    passed over, [cur] is the piece being read. *)
Fixpoint split_go (sep : string) (skip : nat) (cur s : string) : list string :=
  match s with
  | EmptyString => [cur]
  | String c t =>
      match skip with
      | S k => split_go sep k cur t
      | O =>
          if prefix sep s
          then cur :: split_go sep (Nat.pred (String.length sep)) EmptyString t
          else split_go sep O (cur ++ String c EmptyString) t
      end
  end.

Definition py_split (sep s : string) : list string :=
  split_go sep O EmptyString s.

(** [s.replace(old, new)] for a non-empty [old]. *)
Definition py_replace (old new s : string) : string :=
  String.concat new (py_split old s).

(** [str(n)] for an integer. *)
Definition str_of_Z (n : Z) : string := NilZero.string_of_int (Z.to_int n).

(** [f"{n:02d}"]: at least two characters, zero padded; the sign counts. *)
Definition fmt_02d (n : Z) : string :=
  if (0 <=? n) && (n <? 10) then "0" ++ str_of_Z n else str_of_Z n.

(* ================================================================== *)
(** ** Python values

    What [response.json()] yields and what the extractors build: [None],
    booleans, integers, floats, strings, lists and dicts.  A float is kept
    as the text [repr] gives for it (["7.8"], ["0.0"], ["nan"]): the module
    only formats floats, tests them for truth and hands them to [float].
    A dict is the list of its items, keys distinct, in insertion order. *)

#[warnings="-register-all"]
Inductive pyval : Type :=
| PNone
| PBool (b : bool)
| PInt (n : Z)
| PFloat (repr : string)
| PStr (s : string)
| PList (l : list pyval)
| PDict (d : list (string * pyval)).

Fixpoint dict_get (k : string) (d : list (string * pyval)) : option pyval :=
  match d with
  | [] => None
  | (k', v) :: t => if String.eqb k k' then Some v else dict_get k t
  end.

(** [bool(v)]. *)
Definition py_truthy (v : pyval) : bool :=
  match v with
  | PNone => false
  | PBool b => b
  | PInt n => negb (n =? 0)
  | PFloat r => negb (String.eqb r "0.0" || String.eqb r "-0.0")
  | PStr s => negb (String.eqb s "")
  | PList l => match l with [] => false | _ => true end
  | PDict d => match d with [] => false | _ => true end
  end.

(** [a or b]. *)
Definition py_or (a b : pyval) : pyval := if py_truthy a then a else b.

(** [v == s] for a string [s]. *)
Definition py_eq_str (v : pyval) (s : string) : bool :=
  match v with
  | PStr t => String.eqb t s
  | _ => false
  end.

Definition chr (n : N) : string := String (ascii_of_N n) EmptyString.
Definition quote1 : ascii := ascii_of_N 39.
Definition quote2 : ascii := ascii_of_N 34.
Definition backslash : ascii := ascii_of_N 92.

Definition hex_digit (n : N) : string :=
  chr (if N.ltb n 10 then 48 + n else 87 + n)%N.

Definition hex2 (n : N) : string := hex_digit (n / 16)%N ++ hex_digit (n mod 16)%N.

(** One character inside [repr] of a string quoted with [q]. *)
Definition repr_char (q c : ascii) : string :=
  let n := code c in
  if (Ascii.eqb c q || Ascii.eqb c backslash)%bool
  then String backslash (String c EmptyString)
  else if N.eqb n 9 then String backslash "t"
  else if N.eqb n 10 then String backslash "n"
  else if N.eqb n 13 then String backslash "r"
  else if (N.ltb n 32 || N.eqb n 127
           || (N.leb 128 n && N.leb n 160) || N.eqb n 173)%bool
  then String backslash ("x" ++ hex2 n)
  else String c EmptyString.

Fixpoint str_flat_map (f : ascii -> string) (s : string) : string :=
  match s with
  | EmptyString => EmptyString
  | String c t => f c ++ str_flat_map f t
  end.

(** [repr(s)] for a string: single quotes unless the string holds one and
    no double quote. *)
Definition repr_str (s : string) : string :=
  let q := if (str_existsb (Ascii.eqb quote1) s
               && negb (str_existsb (Ascii.eqb quote2) s))%bool
           then quote2 else quote1 in
  String q (str_flat_map (repr_char q) s ++ String q EmptyString).

(** [repr(v)]. *)
Fixpoint py_repr (v : pyval) : string :=
  match v with
  | PNone => "None"
  | PBool true => "True"
  | PBool false => "False"
  | PInt n => str_of_Z n
  | PFloat r => r
  | PStr s => repr_str s
  | PList l => "[" ++ String.concat ", " (map py_repr l) ++ "]"
  | PDict d =>
      "{" ++ String.concat ", "
               (map (fun kv => match kv with
                               | (k, x) => repr_str k ++ ": " ++ py_repr x
                               end) d) ++ "}"
  end.

(** [str(v)], which is what an f-string field [{v}] inserts. *)
Definition py_str (v : pyval) : string :=
  match v with
  | PStr s => s
  | _ => py_repr v
  end.

(* ================================================================== *)
(** ** Exceptions and the error monad *)

(** The exception classes the module can meet.  [ClientError] stands for
    [aiohttp.ClientError] and its subclasses; every other constructor is a
    subclass of [Exception] that is not a [ClientError]. *)
Inductive exn : Type :=
| ClientError (msg : string)
| KeyError (key : pyval)
| IndexError
| TypeError
| AttributeError
| ValueError
| OverflowError
| OtherError (msg : string).

Inductive exc (A : Type) : Type :=
| Ok (a : A)
| Raise (e : exn).
Arguments Ok {A} a.
Arguments Raise {A} e.

Definition bind {A B : Type} (m : exc A) (k : A -> exc B) : exc B :=
  match m with
  | Ok a => k a
  | Raise e => Raise e
  end.

Notation "x <- m ;; k" := (bind m (fun x => k))
  (at level 61, m at next level, right associativity).

(** [[f(x) for x in l]]: the calls happen left to right and the first
    exception ends the comprehension. *)
Fixpoint mapM {A B : Type} (f : A -> exc B) (l : list A) : exc (list B) :=
  match l with
  | [] => Ok []
  | x :: t => y <- f x ;; ys <- mapM f t ;; Ok (y :: ys)
  end.

(** [[x for x in l if p(x)]]. *)
Fixpoint filterM {A : Type} (p : A -> exc bool) (l : list A) : exc (list A) :=
  match l with
  | [] => Ok []
  | x :: t => b <- p x ;; ys <- filterM p t ;; Ok (if b then x :: ys else ys)
  end.

(** [try: m  except Exception: return d].  The handlers of the module also
    write one line to the logger, which is left out. *)
Definition try_except {A : Type} (m : exc A) (d : A) : A :=
  match m with
  | Ok a => a
  | Raise _ => d
  end.

(* ================================================================== *)
(** ** The operations of Python the module applies to payloads

    Payloads are untyped: each operation says what Python does on every
    kind of value, raising where Python raises. *)

(** [d.get(k, default)]: only a dict has the method. *)
Definition py_get (d : pyval) (k : string) (default : pyval) : exc pyval :=
  match d with
  | PDict kv => Ok (match dict_get k kv with Some v => v | None => default end)
  | _ => Raise AttributeError
  end.

(** [x[k]] for a string key [k]. *)
Definition py_getitem (x : pyval) (k : string) : exc pyval :=
  match x with
  | PDict kv =>
      match dict_get k kv with
      | Some v => Ok v
      | None => Raise (KeyError (PStr k))
      end
  | _ => Raise TypeError
  end.

(** [x[0]]. *)
Definition py_index0 (x : pyval) : exc pyval :=
  match x with
  | PList (a :: _) => Ok a
  | PList [] => Raise IndexError
  | PStr (String c _) => Ok (PStr (String c EmptyString))
  | PStr EmptyString => Raise IndexError
  | PDict _ => Raise (KeyError (PInt 0))
  | _ => Raise TypeError
  end.

(** [x[:n]]: strings and lists can be sliced; a dict refuses the slice as a
    key, the other values cannot be subscripted. *)
Definition py_slice (n : nat) (x : pyval) : exc pyval :=
  match x with
  | PStr s => Ok (PStr (str_take n s))
  | PList l => Ok (PList (firstn n l))
  | _ => Raise TypeError
  end.

(** [k in x] for a string [k]: substring of a string, element of a list,
    key of a dict. *)
Definition py_contains (k : string) (x : pyval) : exc bool :=
  match x with
  | PStr s => Ok (is_substring k s)
  | PList l => Ok (existsb (fun v => py_eq_str v k) l)
  | PDict d => Ok (match dict_get k d with Some _ => true | None => false end)
  | _ => Raise TypeError
  end.

(** [for v in x]: the elements of a list, the characters of a string, the
    keys of a dict. *)
Definition py_iter (x : pyval) : exc (list pyval) :=
  match x with
  | PList l => Ok l
  | PStr s => Ok (map PStr (chars s))
  | PDict d => Ok (map (fun kv => PStr (fst kv)) d)
  | _ => Raise TypeError
  end.

Definition as_str (v : pyval) : exc string :=
  match v with
  | PStr s => Ok s
  | _ => Raise TypeError
  end.

(** [sep.join(l)]: every item must be a string. *)
Definition py_join (sep : string) (l : list pyval) : exc string :=
  parts <- mapM as_str l ;; Ok (String.concat sep parts).

(** [v.isalnum()]: a string method; true when the string is not empty and
    all its characters are alphanumeric. *)
Definition py_isalnum (v : pyval) : exc bool :=
  match v with
  | PStr s => Ok (negb (String.eqb s "") && str_forallb isalnum s)%bool
  | _ => Raise AttributeError
  end.

(** [v.split(sep)] and [v.replace(old, new)]: string methods. *)
Definition py_split_method (v : pyval) (sep : string) : exc (list string) :=
  match v with
  | PStr s => Ok (py_split sep s)
  | _ => Raise AttributeError
  end.

Definition py_replace_method (v : pyval) (old new : string) : exc string :=
  match v with
  | PStr s => Ok (py_replace old new s)
  | _ => Raise AttributeError
  end.

(** *** [float(v)]

    Only whether the call raises is modelled: the text of a float literal
    as [float] accepts it, and the integers a double can hold. *)

Definition lower (c : ascii) : ascii :=
  if in_range 65 90 c then ascii_of_N (code c + 32) else c.

Fixpoint str_map (f : ascii -> ascii) (s : string) : string :=
  match s with
  | EmptyString => EmptyString
  | String c t => String (f c) (str_map f t)
  end.

Fixpoint drop_digits (s : string) : string :=
  match s with
  | String c t => if isdigit_ascii c then drop_digits t else s
  | EmptyString => EmptyString
  end.

Definition starts_with_digit (s : string) : bool :=
  match s with
  | String c _ => isdigit_ascii c
  | EmptyString => false
  end.

Definition drop_sign (s : string) : string :=
  match s with
  | String c t => if (N.eqb (code c) 43 || N.eqb (code c) 45)%bool then t else s
  | EmptyString => EmptyString
  end.

(** An underscore is allowed only between two digits. *)
Fixpoint underscores_ok (prev_digit : bool) (s : string) : bool :=
  match s with
  | EmptyString => true
  | String c t =>
      if N.eqb (code c) 95
      then (prev_digit && starts_with_digit t && underscores_ok false t)%bool
      else underscores_ok (isdigit_ascii c) t
  end.

(** The exponent part, or nothing, up to the end of the text. *)
Definition exponent_ok (s : string) : bool :=
  match s with
  | EmptyString => true
  | String c t =>
      (N.eqb (code (lower c)) 101
       && starts_with_digit (drop_sign t)
       && String.eqb (drop_digits (drop_sign t)) "")%bool
  end.

Definition decimal_ok (s : string) : bool :=
  let after_int := drop_digits s in
  match after_int with
  | String c frac =>
      if N.eqb (code c) 46
      then ((starts_with_digit s || starts_with_digit frac)
            && exponent_ok (drop_digits frac))%bool
      else (starts_with_digit s && exponent_ok after_int)%bool
  | EmptyString => starts_with_digit s
  end.

(** The strings [float] converts: white space around, a sign, then [inf],
    [infinity], [nan] in any case, or a decimal number. *)
Definition float_literal_ok (s : string) : bool :=
  let t := py_strip s in
  let u := str_filter (fun c => negb (N.eqb (code c) 95)) t in
  let body := str_map lower (drop_sign u) in
  (underscores_ok false t
   && (String.eqb body "inf" || String.eqb body "infinity"
       || String.eqb body "nan" || decimal_ok body))%bool.

(** [float(v)]: [Ok tt] when the conversion succeeds.  An integer converts
    unless it rounds beyond the largest double. *)
Definition py_float (v : pyval) : exc unit :=
  match v with
  | PFloat _ | PBool _ => Ok tt
  | PInt n =>
      if Z.abs n <? 2 ^ 1024 - 2 ^ 970 then Ok tt else Raise OverflowError
  | PStr s => if float_literal_ok s then Ok tt else Raise ValueError
  | _ => Raise TypeError
  end.

(* ================================================================== *)
(** ** The world outside the module

    [session_get url] is [session.get(url)]: it raises on a transport
    failure and otherwise gives a response, whose [json()] raises when the
    body does not parse.  [ia_get_movie id] is [IMDb().get_movie(id)], a
    dict-like [Movie].  [TMDB_API_KEY] comes from [config]. *)

Record response : Type := {
  status : Z;
  json : exc pyval
}.

Record world : Type := {
  TMDB_API_KEY : string;
  session_get : string -> exc response;
  ia_get_movie : string -> exc pyval
}.

(* ================================================================== *)
(** ** Field extractors *)

Definition POSTER_BASE_URL : string := "https://image.tmdb.org/t/p/original".
Definition PROFILE_BASE_URL : string := "https://image.tmdb.org/t/p/w500".

Definition profile_url (path : pyval) : pyval :=
  if py_truthy path then PStr (PROFILE_BASE_URL ++ py_str path) else PNone.

Definition extract_language (data : pyval) : exc string :=
  spoken_languages <- py_get data "spoken_languages" (PList []) ;;
  if py_truthy spoken_languages then
    langs <- py_iter spoken_languages ;;
    names <- mapM (fun lang => py_get lang "english_name" (PStr "Unknown")) langs ;;
    py_join ", " names
  else Ok "Unknown".

(** The body of the loop of [extract_genres]: what one [genre] adds to the
    list. *)
Definition genre_entries (genre : pyval) : exc (list pyval) :=
  name <- py_getitem genre "name" ;;
  has_amp <- py_contains "&" name ;;
  if has_amp : bool then
    parts <- py_split_method name "&" ;;
    Ok (map (fun g => PStr (py_strip g)) parts)
  else Ok [name].

Definition extract_genres (data : pyval) : exc (list pyval) :=
  gs <- py_get data "genres" (PList []) ;;
  items <- py_iter gs ;;
  added <- mapM genre_entries items ;;
  Ok (concat added).

Definition extract_release_date (data : pyval) : exc pyval :=
  release_date <- py_get data "release_date" PNone ;;
  if py_truthy release_date then Ok release_date
  else py_get data "first_air_date" (PStr "").

(** The dict [{"name": ..., "profile_path": ...}] built for a crew member,
    a creator or a cast member. *)
Definition person (member : pyval) : exc pyval :=
  name <- py_get member "name" PNone ;;
  path <- py_get member "profile_path" PNone ;;
  Ok (PDict [("name", name); ("profile_path", profile_url path)]).

Fixpoint crew_directors (crew : list pyval) : exc (list pyval) :=
  match crew with
  | [] => Ok []
  | member :: rest =>
      job <- py_get member "job" PNone ;;
      if py_eq_str job "Director" then
        d <- person member ;; ds <- crew_directors rest ;; Ok (d :: ds)
      else crew_directors rest
  end.

Definition extract_directors (tmdb_type : string) (data credits : pyval)
  : exc (list pyval) :=
  if String.eqb tmdb_type "movie" then
    crew <- py_get credits "crew" (PList []) ;;
    members <- py_iter crew ;;
    crew_directors members
  else if String.eqb tmdb_type "tv" then
    created_by <- py_get data "created_by" (PList []) ;;
    creators <- py_iter created_by ;;
    mapM person creators
  else Ok [].

Definition extract_stars (credits : pyval) (limit : nat) : exc (list pyval) :=
  cast_list <- py_get credits "cast" (PList []) ;;
  if negb (py_truthy cast_list) then Ok []
  else
    first <- py_slice limit cast_list ;;
    members <- py_iter first ;;
    mapM person members.

Definition get_poster_url (data : pyval) : exc pyval :=
  poster_path <- py_get data "poster_path" PNone ;;
  Ok (if py_truthy poster_path
      then PStr (POSTER_BASE_URL ++ py_str poster_path) else PNone).

(** The loop of [get_backdrop_url] over the keys still to try. *)
Fixpoint backdrop_from (keys : list string) (movie_images : pyval) : exc pyval :=
  match keys with
  | [] => Ok PNone
  | key :: rest =>
      present <- py_contains key movie_images ;;
      if present : bool then
        images <- py_getitem movie_images key ;;
        if py_truthy images then
          first <- py_index0 images ;;
          path <- py_get first "file_path" PNone ;;
          if py_truthy path then Ok (PStr (POSTER_BASE_URL ++ py_str path))
          else backdrop_from rest movie_images
        else backdrop_from rest movie_images
      else backdrop_from rest movie_images
  end.

Definition get_backdrop_url (movie_images : pyval) : exc pyval :=
  backdrop_from ["backdrops"; "posters"] movie_images.

(** The loop of [get_trailer_url]: the first YouTube trailer ends it. *)
Fixpoint first_trailer (results : list pyval) : exc pyval :=
  match results with
  | [] => Ok PNone
  | video :: rest =>
      site <- py_get video "site" PNone ;;
      if py_eq_str site "YouTube" then
        type <- py_get video "type" PNone ;;
        if py_eq_str type "Trailer" then
          key <- py_get video "key" PNone ;;
          Ok (PStr ("https://www.youtube.com/watch?v=" ++ py_str key))
        else first_trailer rest
      else first_trailer rest
  end.

Definition video_url (w : world) (tmdb_type : string) (tmdb_id : Z) : string :=
  "https://api.themoviedb.org/3/" ++ tmdb_type ++ "/" ++ str_of_Z tmdb_id
  ++ "/videos?api_key=" ++ TMDB_API_KEY w.

Definition get_trailer_url (w : world) (tmdb_type : string) (tmdb_id : Z)
  : exc pyval :=
  video_response <- session_get w (video_url w tmdb_type tmdb_id) ;;
  if status video_response =? 200 then
    data <- json video_response ;;
    results <- py_get data "results" (PList []) ;;
    videos <- py_iter results ;;
    first_trailer videos
  else Ok PNone.

Definition external_ids_url (w : world) (tv_id : pyval) : string :=
  "https://api.themoviedb.org/3/tv/" ++ py_str tv_id
  ++ "/external_ids?api_key=" ++ TMDB_API_KEY w.

Definition get_tv_imdb_id (w : world) (tv_id : pyval) : exc pyval :=
  resp <- session_get w (external_ids_url w tv_id) ;;
  data <- json resp ;;
  py_get data "imdb_id" PNone.

(** [get_imdb_plot]: the whole body is inside [try], so every exception
    ends in the empty string. *)
Definition get_imdb_plot (w : world) (imdb_id : pyval) : string :=
  try_except
    (movie_id <- py_replace_method imdb_id "tt" "" ;;
     movie <- ia_get_movie w movie_id ;;
     plots <- py_get movie "plot" (PList [PStr ""]) ;;
     plot <- py_index0 plots ;;
     pieces <- py_split_method plot "::" ;;
     Ok (py_strip (hd "" pieces)))
    "".

(* ================================================================== *)
(** ** The message formatter *)

(** [season] and [episode] are [None] or an integer. *)
Definition given (n : option Z) : bool :=
  match n with
  | Some k => negb (k =? 0)
  | None => false
  end.

Definition is_one (n : option Z) : bool :=
  match n with
  | Some k => k =? 1
  | None => false
  end.

(** [n and n > 1]. *)
Definition above_one (n : option Z) : bool :=
  match n with
  | Some k => negb (k =? 0) && (1 <? k)
  | None => false
  end.

Definition num (n : option Z) : Z := match n with Some k => k | None => 0 end.

(** [data.get(field, '')[:4] if data.get(field) else '']. *)
Definition year_of (data : pyval) (field : string) : exc pyval :=
  d <- py_get data field PNone ;;
  if py_truthy d then
    d' <- py_get data field (PStr "") ;;
    py_slice 4 d'
  else Ok (PStr "").

Definition available : string := "</b> is now available!".

(** The header, lines 184 to 205. *)
Definition header_of (tmdb_type : string) (season episode : option Z)
    (data : pyval) : exc string :=
  if String.eqb tmdb_type "movie" then
    title <- py_get data "title" (PStr "") ;;
    year <- year_of data "release_date" ;;
    Ok ("<b>" ++ py_str title ++ " (" ++ py_str year ++ ")" ++ available)
  else if String.eqb tmdb_type "tv" then
    title <- py_get data "name" (PStr "") ;;
    year <- year_of data "first_air_date" ;;
    if given season && given episode then
      if is_one season && is_one episode then
        Ok ("<b>" ++ py_str title ++ " (" ++ py_str year ++ ") S"
            ++ fmt_02d (num season) ++ "E" ++ fmt_02d (num episode) ++ available)
      else
        Ok ("<b>" ++ py_str title ++ " S" ++ fmt_02d (num season) ++ "E"
            ++ fmt_02d (num episode) ++ available)
    else if given season then
      if is_one season then
        Ok ("<b>" ++ py_str title ++ " (" ++ py_str year ++ ") Season "
            ++ str_of_Z (num season) ++ available)
      else
        Ok ("<b>" ++ py_str title ++ " Season " ++ str_of_Z (num season)
            ++ available)
    else Ok ("<b>" ++ py_str title ++ available)
  else Ok "Now Available!".

(** ['#' + ''.join(c for c in g if c.isalnum())]. *)
Definition genre_tag (g : pyval) : exc string :=
  cs <- py_iter g ;;
  kept <- filterM py_isalnum cs ;;
  body <- py_join "" kept ;;
  Ok ("#" ++ body).

(** The genre tags, lines 208 to 210. *)
Definition genres_str_of (data : pyval) : exc string :=
  gs <- py_get data "genres" (PList []) ;;
  items <- py_iter gs ;;
  genres <- mapM (fun g => py_getitem g "name") items ;;
  genres_clean <- mapM genre_tag genres ;;
  Ok (String.concat " " genres_clean).

Definition nl2 : string := String (ascii_of_N 10) (String (ascii_of_N 10) "").

Definition format_tmdb_info (tmdb_type : string) (season episode : option Z)
    (directors_str stars_str : string) (data plot : pyval) : exc string :=
  header <- header_of tmdb_type season episode data ;;
  genres_str <- genres_str_of data ;;
  if above_one season || above_one episode then
    Ok (py_strip (header ++ nl2 ++ genres_str))
  else
    let message := header ++ nl2 in
    let message := message ++ (if py_truthy plot then py_str plot ++ nl2 else "") in
    let message :=
      message ++ (if negb (String.eqb stars_str "")
                  then "<b>Stars:</b> " ++ stars_str ++ nl2 else "") in
    let message :=
      message ++ (if negb (String.eqb directors_str "")
                  then "<b>Directors:</b> " ++ directors_str ++ nl2 else "") in
    let message := message ++ genres_str in
    Ok (py_strip message).

(* ================================================================== *)
(** ** The aggregation *)

(** The dict handed to the store.  ["rating"] is a rounded float, kept here
    as the value it is computed from. *)
Record mongo_dict : Type := {
  md_tmdb_id : Z;
  md_tmdb_type : string;
  md_title : pyval;
  (** the value [v] for which ["rating"] is [round(float(v), 1)] *)
  md_rating_of : pyval;
  md_language : string;
  md_genre : list pyval;
  md_release_date : pyval;
  md_story : pyval;
  md_directors : list pyval;
  md_stars : list pyval;
  md_trailer_url : pyval;
  md_poster_url : pyval
}.

(** The populated dict of [get_by_id]; [mongo] is its ["mongo_dict"]. *)
Record announcement : Type := {
  message : string;
  poster_url : pyval;
  backdrop_url : pyval;
  trailer_url : pyval;
  mongo : mongo_dict
}.

(** What [get_by_id] returns: the populated dict, or, from either [except]
    clause, [{"message": f"Error: {str(e)}", "poster_url": None}]. *)
Inductive get_by_id_result : Type :=
| Populated (r : announcement)
| ErrorResult (e : exn).

Definition api_url (w : world) (tmdb_type : string) (tmdb_id : Z) : string :=
  "https://api.themoviedb.org/3/" ++ tmdb_type ++ "/" ++ str_of_Z tmdb_id
  ++ "?api_key=" ++ TMDB_API_KEY w ++ "&language=en-US".

Definition images_url (w : world) (tmdb_type : string) (tmdb_id : Z) : string :=
  "https://api.themoviedb.org/3/" ++ tmdb_type ++ "/" ++ str_of_Z tmdb_id
  ++ "/images?api_key=" ++ TMDB_API_KEY w
  ++ "&language=en-US&include_image_language=en,hi".

Definition credits_url (w : world) (tmdb_type : string) (tmdb_id : Z) : string :=
  "https://api.themoviedb.org/3/" ++ tmdb_type ++ "/" ++ str_of_Z tmdb_id
  ++ "/credits?api_key=" ++ TMDB_API_KEY w ++ "&language=en-US".

(** [", ".join([d["name"] for d in l]) if l else "Unknown"], lines 110 and
    111. *)
Definition names_str (l : list pyval) : exc string :=
  match l with
  | [] => Ok "Unknown"
  | _ =>
      names <- mapM (fun d => py_getitem d "name") l ;;
      py_join ", " names
  end.

(** Lines 117 to 120: the external identifier, looked up for a series
    whose detail payload has none. *)
Definition resolve_imdb_id (w : world) (tmdb_type : string) (data : pyval)
  : exc pyval :=
  imdb_id <- py_get data "imdb_id" PNone ;;
  if String.eqb tmdb_type "tv" && negb (py_truthy imdb_id) then
    tv_id <- py_get data "id" PNone ;;
    get_tv_imdb_id w tv_id
  else Ok imdb_id.

(** Lines 121 to 125: the plot, from IMDb or else the overview. *)
Definition resolve_plot (w : world) (data imdb_id : pyval) : exc pyval :=
  let plot := if py_truthy imdb_id then get_imdb_plot w imdb_id else "" in
  if negb (String.eqb plot "") then Ok (PStr plot)
  else py_get data "overview" (PStr "").

(** The body of the [try] of [get_by_id].  The three requests of
    [asyncio.gather] are read in the order of its arguments: when several
    fail, the exception kept is that of the first. *)
Definition get_by_id_body (w : world) (tmdb_type : string) (tmdb_id : Z)
    (season episode : option Z) : exc announcement :=
  detail_resp <- session_get w (api_url w tmdb_type tmdb_id) ;;
  images_resp <- session_get w (images_url w tmdb_type tmdb_id) ;;
  credits_resp <- session_get w (credits_url w tmdb_type tmdb_id) ;;
  data <- json detail_resp ;;
  movie_images <- json images_resp ;;
  credits <- json credits_resp ;;
  poster <- get_poster_url data ;;
  backdrop <- get_backdrop_url movie_images ;;
  trailer <- get_trailer_url w tmdb_type tmdb_id ;;
  directors_list <- extract_directors tmdb_type data credits ;;
  stars_list <- extract_stars credits 5 ;;
  directors_str <- names_str directors_list ;;
  stars_str <- names_str stars_list ;;
  language <- extract_language data ;;
  genres <- extract_genres data ;;
  release_date <- extract_release_date data ;;
  imdb_id <- resolve_imdb_id w tmdb_type data ;;
  plot <- resolve_plot w data imdb_id ;;
  msg <- format_tmdb_info tmdb_type season episode
           directors_str stars_str data plot ;;
  title <- py_get data "title" PNone ;;
  name <- py_get data "name" PNone ;;
  vote_average <- py_get data "vote_average" (PInt 0) ;;
  _ <- py_float vote_average ;;
  overview <- py_get data "overview" PNone ;;
  Ok {| message := msg;
        poster_url := poster;
        backdrop_url := backdrop;
        trailer_url := trailer;
        mongo := {| md_tmdb_id := tmdb_id;
                    md_tmdb_type := tmdb_type;
                    md_title := py_or title name;
                    md_rating_of := vote_average;
                    md_language := language;
                    md_genre := genres;
                    md_release_date := release_date;
                    md_story := py_or plot overview;
                    md_directors := directors_list;
                    md_stars := stars_list;
                    md_trailer_url := trailer;
                    md_poster_url := poster |} |}.

Definition get_by_id (w : world) (tmdb_type : string) (tmdb_id : Z)
    (season episode : option Z) : get_by_id_result :=
  match get_by_id_body w tmdb_type tmdb_id season episode with
  | Ok r => Populated r
  | Raise e => ErrorResult e
  end.

(* ================================================================== *)
(** ** Name-based search *)

(** The condition of the year filter on one [result]; [field] is
    ['release_date'] for movies and ['first_air_date'] for series. *)
Definition year_matches (field : string) (year : pyval) (result : pyval)
  : exc bool :=
  present <- py_contains field result ;;
  if present : bool then
    d <- py_getitem result field ;;
    if py_truthy d then
      d4 <- py_slice 4 d ;;
      Ok (py_eq_str d4 (py_str year))
    else Ok false
  else Ok false.

(** The body of the [try] of both searches. *)
Definition search_body (w : world) (url field media_type : string)
    (year : pyval) : exc pyval :=
  search_response <- session_get w url ;;
  search_data <- json search_response ;;
  found <- py_get search_data "results" PNone ;;
  if py_truthy found then
    results <- py_getitem search_data "results" ;;
    results <- (if py_truthy year then
                  items <- py_iter results ;;
                  kept <- filterM (year_matches field year) items ;;
                  Ok (PList kept)
                else Ok results) ;;
    if py_truthy results then
      result <- py_index0 results ;;
      id <- py_getitem result "id" ;;
      Ok (PDict [("id", id); ("media_type", PStr media_type)])
    else Ok PNone
  else Ok PNone.

Definition movie_search_url (w : world) (movie_name : string) : string :=
  "https://api.themoviedb.org/3/search/movie?api_key=" ++ TMDB_API_KEY w
  ++ "&query=" ++ movie_name.

Definition tv_search_url (w : world) (tv_name : string) : string :=
  "https://api.themoviedb.org/3/search/tv?api_key=" ++ TMDB_API_KEY w
  ++ "&query=" ++ tv_name.

Definition get_movie_by_name (w : world) (movie_name : string)
    (release_year : pyval) : pyval :=
  try_except
    (search_body w (movie_search_url w movie_name)
                 "release_date" "movie" release_year)
    PNone.

Definition get_tv_by_name (w : world) (tv_name : string)
    (first_air_year : pyval) : pyval :=
  try_except
    (search_body w (tv_search_url w tv_name)
                 "first_air_date" "tv" first_air_year)
    PNone.

(* ================================================================== *)
(** ** Helpers beside the pipeline *)



(** [len(v)]. *)
Definition py_len (v : pyval) : exc nat :=
  match v with
  | PStr s => Ok (String.length s)
  | PList l => Ok (List.length l)
  | PDict d => Ok (List.length d)
  | _ => Raise TypeError
  end.

(** [v + s] for a string [s]: only a string can be added to a string. *)
Definition py_add_str (v : pyval) (s : string) : exc pyval :=
  match v with
  | PStr t => Ok (PStr (t ++ s))
  | _ => Raise TypeError
  end.

Definition MAX_OVERVIEW_LENGTH : nat := 600.

Definition truncate_overview (overview : pyval) : exc pyval :=
  n <- py_len overview ;;
  if Nat.ltb MAX_OVERVIEW_LENGTH n then
    front <- py_slice MAX_OVERVIEW_LENGTH overview ;;
    py_add_str front "..."
  else Ok overview.

(* ================================================================== *)
(** ** Vocabulary of the statements *)

(** A string that [rstrip] leaves alone and that is not empty. *)
Definition ends_solid (s : string) : Prop := rstrip s = s /\ s <> "".

(** The payload [data] lists genres whose names are the strings [names]. *)
Definition genres_named (data : pyval) (names : list string) : Prop :=
  exists items,
    py_get data "genres" (PList []) = Ok (PList items)
    /\ Forall2 (fun g n => py_getitem g "name" = Ok (PStr n)) items names.

Definition amp : string := "&".

(** What the extractor makes of one genre name. *)
Definition split_entries (n : string) (es : list pyval) : Prop :=
  (is_substring amp n = true ->
   exists pieces,
     String.concat amp pieces = n
     /\ Forall (fun p => is_substring amp p = false) pieces
     /\ (2 <= List.length pieces)%nat
     /\ es = map (fun p => PStr (py_strip p)) pieces)
  /\ (is_substring amp n = false -> es = [PStr n]).

(** The tag of one genre name. *)
Definition tag_of (n : string) : string := "#" ++ str_filter isalnum n.

(** The three optional sections of the full body. *)
Definition plot_section (plot : pyval) : string :=
  if py_truthy plot then py_str plot ++ nl2 else "".

Definition stars_section (stars_str : string) : string :=
  if String.eqb stars_str "" then "" else "<b>Stars:</b> " ++ stars_str ++ nl2.

Definition directors_section (directors_str : string) : string :=
  if String.eqb directors_str "" then ""
  else "<b>Directors:</b> " ++ directors_str ++ nl2.

(** [n > 1] for a season or an episode that was given. *)
Definition gt_one (n : option Z) : Prop := exists k, n = Some k /\ 1 < k.

(** The movie header for a title and a year text. *)
Definition movie_header (title year : string) : string :=
  "<b>" ++ title ++ " (" ++ year ++ ")</b> is now available!".

(** The first four characters of a release date that is a string; nothing
    for a release date that is absent or empty. *)
Definition year_text (release_date : pyval) : string :=
  match release_date with
  | PStr d => str_take 4 d
  | _ => ""
  end.

Definition is_dict (v : pyval) : Prop := exists d, v = PDict d.

(** An expected list field: absent, or a list of dicts. *)
Definition dicts_or_absent (v : option pyval) : Prop :=
  match v with
  | None => True
  | Some x => exists l, x = PList l /\ Forall is_dict l
  end.

(** A spoken-language entry: a dict whose ['english_name'], when it has
    one, is a string. *)
Definition language_entry (lang : pyval) : Prop :=
  exists d, lang = PDict d
            /\ match dict_get "english_name" d with
               | None => True
               | Some n => exists s, n = PStr s
               end.

Definition stars_unknown : string := "<b>Stars:</b> Unknown".
Definition directors_unknown : string := "<b>Directors:</b> Unknown".

Definition sep2 : string := "::".

Definition is_ok {A : Type} (m : exc A) : bool :=
  match m with
  | Ok _ => true
  | Raise _ => false
  end.

Definition is_populated (r : get_by_id_result) : bool :=
  match r with
  | Populated _ => true
  | ErrorResult _ => false
  end.

(** The world [w] with another IMDb client. *)
Definition with_ia (w : world) (ia : string -> exc pyval) : world :=
  {| TMDB_API_KEY := TMDB_API_KEY w;
     session_get := session_get w;
     ia_get_movie := ia |}.

(** Two answers of [session.get] that agree on everything but the status
    code. *)
Definition same_but_status (a b : exc response) : Prop :=
  match a, b with
  | Ok x, Ok y => json x = json y
  | Raise e, Raise e' => e = e'
  | _, _ => False
  end.

(** Two worlds that differ at most in the status codes of their responses,
    and not at all on the videos endpoint of one title. *)
Definition status_variant (w w' : world) (tmdb_type : string) (tmdb_id : Z)
  : Prop :=
  TMDB_API_KEY w = TMDB_API_KEY w'
  /\ (forall i, ia_get_movie w i = ia_get_movie w' i)
  /\ (forall u, same_but_status (session_get w u) (session_get w' u))
  /\ session_get w (video_url w tmdb_type tmdb_id)
     = session_get w' (video_url w tmdb_type tmdb_id).

(** The value of key [k] in the items [d] of a dict, [None] when absent:
    [d.get(k)]. *)
Definition field (k : string) (d : list (string * pyval)) : pyval :=
  match dict_get k d with
  | Some v => v
  | None => PNone
  end.

(** The person dict made of a member given by its items. *)
Definition person_of (d : list (string * pyval)) : pyval :=
  PDict [("name", field "name" d);
         ("profile_path", profile_url (field "profile_path" d))].

Definition is_director (d : list (string * pyval)) : bool :=
  py_eq_str (field "job" d) "Director".

(** The display name of a spoken language: its ['english_name'], or
    ["Unknown"] when it has none. *)
Definition language_name (d : list (string * pyval)) : pyval :=
  match dict_get "english_name" d with
  | Some v => v
  | None => PStr "Unknown"
  end.

Definition is_str (v : pyval) : bool :=
  match v with
  | PStr _ => true
  | _ => false
  end.

Definition str_of (v : pyval) : string :=
  match v with
  | PStr s => s
  | _ => ""
  end.

(** The path of the first image of an images list, when the list is
    there, is not empty, and its first image has a path. *)
Definition first_path (images : option pyval) : option pyval :=
  match images with
  | Some (PList (PDict d :: _)) =>
      if py_truthy (field "file_path" d) then Some (field "file_path" d)
      else None
  | _ => None
  end.

(** An images list the loop of [get_backdrop_url] gets through: absent,
    or a list that is empty or starts with a dict. *)
Definition images_shape (images : option pyval) : Prop :=
  match images with
  | None => True
  | Some (PList []) => True
  | Some (PList (PDict _ :: _)) => True
  | _ => False
  end.

Definition is_trailer (d : list (string * pyval)) : bool :=
  (py_eq_str (field "site" d) "YouTube"
   && py_eq_str (field "type" d) "Trailer")%bool.

Definition poster_link (path : pyval) : pyval :=
  PStr (POSTER_BASE_URL ++ py_str path).


(** A request that gives no payload: it raises, or the body of its
    response does not parse. *)
Definition fetch_fails (m : exc response) : Prop :=
  match m with
  | Raise _ => True
  | Ok resp => is_ok (json resp) = false
  end.

Definition youtube_link (key : string) : pyval :=
  PStr ("https://www.youtube.com/watch?v=" ++ key).

(* ================================================================== *)
(** ** Sample payloads and worlds *)

Definition scifi_data : pyval :=
  PDict [("title", PStr "Dune");
         ("genres", PList [PDict [("id", PInt 10765);
                                  ("name", PStr "Sci-Fi & Fantasy")]])].

Definition show_data : pyval :=
  PDict [("name", PStr "Show"); ("first_air_date", PStr "2020-05-01");
         ("genres", PList [PDict [("id", PInt 18); ("name", PStr "Drama")]])].

Definition dune_data : pyval :=
  PDict [("title", PStr "Dune"); ("release_date", PStr "2021-09-15")].

Definition padded_data : pyval :=
  PDict [("genres", PList [PDict [("id", PInt 18); ("name", PStr " Drama ")]])].

Definition nameless_genre_data : pyval :=
  PDict [("title", PStr "Dune"); ("genres", PList [PDict [("id", PInt 18)]])].

Definition no_route : exc response :=
  Raise (ClientError "Cannot connect to host api.themoviedb.org:443").

Fixpoint route (table : list (string * exc response)) (url : string)
  : exc response :=
  match table with
  | [] => no_route
  | (u, r) :: t => if String.eqb url u then r else route t url
  end.

Definition served (st : Z) (body : pyval) : exc response :=
  Ok {| status := st; json := Ok body |}.

Definition no_imdb (movie_id : string) : exc pyval :=
  Raise (OtherError "IMDb unavailable").

Definition dune_detail : pyval :=
  PDict [("id", PInt 438631); ("title", PStr "Dune");
         ("release_date", PStr "2021-09-15");
         ("genres", PList [PDict [("id", PInt 12); ("name", PStr "Adventure")]]);
         ("vote_average", PFloat "7.8");
         ("overview", PStr "Paul Atreides leads nomadic tribes.")].

Definition dune_url : string :=
  "https://api.themoviedb.org/3/movie/438631?api_key=KEY&language=en-US".
Definition dune_images_url : string :=
  "https://api.themoviedb.org/3/movie/438631/images?api_key=KEY&language=en-US&include_image_language=en,hi".
Definition dune_credits_url : string :=
  "https://api.themoviedb.org/3/movie/438631/credits?api_key=KEY&language=en-US".
Definition dune_videos_url : string :=
  "https://api.themoviedb.org/3/movie/438631/videos?api_key=KEY".

(** A world that answers the four endpoints of movie 438631. *)
Definition movie_world (detail images credits videos : exc response) : world :=
  {| TMDB_API_KEY := "KEY";
     session_get := route [(dune_url, detail);
                           (dune_images_url, images);
                           (dune_credits_url, credits);
                           (dune_videos_url, videos)];
     ia_get_movie := no_imdb |}.

(** Dune, with credits that list nobody, and [videos] as the answer of the
    videos endpoint. *)
Definition dune_world (videos : exc response) : world :=
  movie_world (served 200 dune_detail) (served 200 (PDict []))
              (served 200 (PDict [("id", PInt 438631)])) videos.

Definition show_detail : pyval :=
  PDict [("id", PInt 1399); ("name", PStr "Show");
         ("first_air_date", PStr "2020-05-01"); ("genres", PList [])].

(** A series whose detail payload has no external identifier; [ids] is
    the answer of the external-ids endpoint. *)
Definition show_world (ids : exc response) : world :=
  {| TMDB_API_KEY := "KEY";
     session_get :=
       route [("https://api.themoviedb.org/3/tv/1399?api_key=KEY&language=en-US",
               served 200 show_detail);
              ("https://api.themoviedb.org/3/tv/1399/images?api_key=KEY&language=en-US&include_image_language=en,hi",
               served 200 (PDict []));
              ("https://api.themoviedb.org/3/tv/1399/credits?api_key=KEY&language=en-US",
               served 200 (PDict []));
              ("https://api.themoviedb.org/3/tv/1399/videos?api_key=KEY",
               served 200 (PDict [("results", PList [])]));
              ("https://api.themoviedb.org/3/tv/1399/external_ids?api_key=KEY",
               ids)];
     ia_get_movie := no_imdb |}.

Definition disconnected : exn := ClientError "Server disconnected".

Definition not_found_body : pyval :=
  PDict [("success", PBool false); ("status_code", PInt 34);
         ("status_message",
          PStr "The resource you requested could not be found.")].

Definition no_videos : exc response := served 200 (PDict [("results", PList [])]).

Definition dune_movie : pyval :=
  PDict [("title", PStr "Dune");
         ("plot",
          PList [PStr "A noble family becomes embroiled in a war. ::Anonymous"])].

Definition dune_ia (movie_id : string) : exc pyval :=
  if String.eqb movie_id "1160419" then Ok dune_movie
  else Raise (OtherError "IMDb unavailable").

(** Responses with the error object of TMDB as their body, whatever their
    status codes. *)
Definition error_world (s1 s2 s3 : Z) : world :=
  movie_world (served s1 not_found_body) (served s2 not_found_body)
              (served s3 not_found_body) (served 404 not_found_body).

Definition inception_results : pyval :=
  PDict [("page", PInt 1);
         ("results",
          PList [PDict [("id", PInt 27205); ("title", PStr "Inception");
                        ("name", PStr "Inception");
                        ("release_date", PStr "2010-07-15");
                        ("first_air_date", PStr "2010-07-15")]])].

Definition search_world : world :=
  {| TMDB_API_KEY := "KEY";
     session_get :=
       route [("https://api.themoviedb.org/3/search/movie?api_key=KEY&query=Inception",
               served 200 inception_results);
              ("https://api.themoviedb.org/3/search/tv?api_key=KEY&query=Inception",
               served 200 inception_results)];
     ia_get_movie := no_imdb |}.

(** Credits with seven cast members. *)
Definition seven_cast_items : list (list (string * pyval)) :=
  map (fun n => [("name", PStr n)])
      ["Ann"; "Bob"; "Cy"; "Di"; "Ed"; "Flo"; "Gus"].

Definition seven_cast : pyval :=
  PDict [("cast", PList (map PDict seven_cast_items))].

Definition dune_crew : list (list (string * pyval)) :=
  [[("job", PStr "Writer"); ("name", PStr "Jon")];
   [("job", PStr "Director"); ("name", PStr "Denis");
    ("profile_path", PStr "/denis.jpg")];
   [("job", PStr "Producer"); ("name", PStr "Mary")];
   [("job", PStr "Director"); ("name", PStr "Denis");
    ("profile_path", PStr "/denis.jpg")]].

Definition two_languages : list (list (string * pyval)) :=
  [[("iso_639_1", PStr "en"); ("english_name", PStr "English")];
   [("iso_639_1", PStr "xx")];
   [("english_name", PStr "Hindi")]].

Definition null_language : list (list (string * pyval)) :=
  [[("english_name", PStr "English")]; [("english_name", PNone)]].

(** Images whose first backdrop has no path; the second has one. *)
Definition pathless_first_backdrop : list (string * pyval) :=
  [("backdrops", PList [PDict [("file_path", PNone); ("width", PInt 1920)];
                        PDict [("file_path", PStr "/second.jpg")]]);
   ("posters", PList [PDict [("file_path", PStr "/poster.jpg")]])].

(** Videos: a teaser, a trailer hosted elsewhere, the YouTube trailer, and
    an entry that is not even a dict. *)
Definition dune_videos : list (string * pyval) :=
  [("id", PInt 438631);
   ("results",
    PList (map PDict [[("site", PStr "YouTube"); ("type", PStr "Teaser");
                       ("key", PStr "t1")];
                      [("site", PStr "Vimeo"); ("type", PStr "Trailer");
                       ("key", PStr "v1")]]
           ++ PDict [("site", PStr "YouTube"); ("type", PStr "Trailer");
                     ("key", PStr "n9xhJrPXop4")]
           :: [PInt 0])%list)].

(** Credits whose second cast member has no name. *)
Definition nameless_cast : list (list (string * pyval)) :=
  [[("name", PStr "Ann")]; [("character", PStr "The Stranger")];
   [("name", PStr "Cy")]].

Definition nameless_cast_world : world :=
  movie_world (served 200 dune_detail) (served 200 (PDict []))
              (served 200 (PDict [("cast", PList (map PDict nameless_cast))]))
              no_videos.

(** A search answer with two results, and one whose first result has no
    identifier. *)
Definition two_results : pyval :=
  PDict [("results",
          PList [PDict [("id", PInt 27205); ("release_date", PStr "2010-07-15");
                        ("first_air_date", PStr "2010-07-15")];
                 PDict [("id", PInt 64956); ("release_date", PStr "2010-12-07");
                        ("first_air_date", PStr "2010-12-07")]])].

Definition searching (answer : exc response) : world :=
  {| TMDB_API_KEY := "KEY";
     session_get :=
       route [("https://api.themoviedb.org/3/search/movie?api_key=KEY&query=Inception",
               answer);
              ("https://api.themoviedb.org/3/search/tv?api_key=KEY&query=Inception",
               answer)];
     ia_get_movie := no_imdb |}.

(** A world that answers the endpoints of a type [person]. *)
Definition person_world : world :=
  {| TMDB_API_KEY := "KEY";
     session_get :=
       route [("https://api.themoviedb.org/3/person/287?api_key=KEY&language=en-US",
               served 200 (PDict [("id", PInt 287); ("name", PStr "Brad")]));
              ("https://api.themoviedb.org/3/person/287/images?api_key=KEY&language=en-US&include_image_language=en,hi",
               served 200 (PDict []));
              ("https://api.themoviedb.org/3/person/287/credits?api_key=KEY&language=en-US",
               served 404 not_found_body);
              ("https://api.themoviedb.org/3/person/287/videos?api_key=KEY",
               served 404 not_found_body)];
     ia_get_movie := no_imdb |}.

(* ================================================================== *)
(** * Properties *)

(** ** Strings *)

Lemma str_app_nil_r (s : string) : s ++ "" = s.
Proof. induction s as [|c s IH]; simpl; [reflexivity | now rewrite IH]. Qed.

Lemma str_app_assoc (a b c : string) : (a ++ b) ++ c = a ++ (b ++ c).
Proof. induction a as [|x a IH]; simpl; [reflexivity | now rewrite IH]. Qed.

Lemma isalnum_not_space (c : ascii) : isalnum c = true -> isspace c = false.
Proof.
  destruct c as [[] [] [] [] [] [] [] []]; vm_compute; congruence.
Qed.

Lemma rstrip_app (a b : string) :
  rstrip (a ++ b) = match rstrip b with
                    | EmptyString => rstrip a
                    | String _ _ => a ++ rstrip b
                    end.
Proof.
  induction a as [|c a IH]; simpl.
  - destruct (rstrip b); reflexivity.
  - rewrite IH. destruct (rstrip b); [reflexivity|].
    destruct a; reflexivity.
Qed.

Lemma ends_solid_app (a b : string) : ends_solid b -> ends_solid (a ++ b).
Proof.
  intros [Hb Hne]. split.
  - rewrite rstrip_app, Hb. destruct b; [congruence | reflexivity].
  - destruct a; simpl; [assumption | discriminate].
Qed.

Lemma rstrip_solid_app (a b : string) :
  rstrip a = a -> rstrip (a ++ b) = a ++ rstrip b.
Proof.
  intros Ha. rewrite rstrip_app. destruct (rstrip b) eqn:E.
  - now rewrite Ha, str_app_nil_r.
  - reflexivity.
Qed.

Lemma rstrip_no_space (s : string) :
  str_forallb (fun c => negb (isspace c)) s = true -> rstrip s = s.
Proof.
  induction s as [|c s IH]; simpl; [reflexivity|].
  intros H. apply andb_prop in H as [Hc Hs]. rewrite (IH Hs).
  destruct s; [|reflexivity].
  destruct (isspace c); [discriminate | reflexivity].
Qed.

Lemma str_filter_alnum_no_space (s : string) :
  str_forallb (fun c => negb (isspace c)) (str_filter isalnum s) = true.
Proof.
  induction s as [|c s IH]; simpl; [reflexivity|].
  destruct (isalnum c) eqn:E; [|assumption].
  simpl. now rewrite (isalnum_not_space c E), IH.
Qed.

Lemma str_filter_alnum_all (s : string) :
  str_forallb isalnum (str_filter isalnum s) = true.
Proof.
  induction s as [|c s IH]; simpl; [reflexivity|].
  destruct (isalnum c) eqn:E; [|assumption].
  simpl. now rewrite E, IH.
Qed.

(** [strip] after a text that starts and ends with a solid character
    only trims what follows it, on the right. *)
Lemma py_strip_after (h rest : string) :
  lstrip h = h -> ends_solid h -> py_strip (h ++ rest) = h ++ rstrip rest.
Proof.
  intros Hl [Hr Hne]. unfold py_strip.
  assert (lstrip (h ++ rest) = h ++ rest) as ->.
  { destruct h as [|c h]; [congruence|]. simpl in *.
    destruct (isspace c) eqn:E; [|reflexivity].
    exfalso. clear Hr Hne.
    assert (String.length (lstrip h) <= String.length h)%nat as Hlen.
    { clear. induction h as [|x h IH]; simpl; [lia|].
      destruct (isspace x); simpl; lia. }
    rewrite Hl in Hlen. simpl in Hlen. lia. }
  now apply rstrip_solid_app.
Qed.

(** *** [split] on a one-character separator *)

Lemma split_go_not_nil (sep : string) (k : nat) (cur s : string) :
  split_go sep k cur s <> [].
Proof.
  revert k cur.
  induction s as [|c s IH]; intros k cur; cbn [split_go]; [discriminate|].
  destruct k; [|apply IH].
  destruct (prefix sep (String c s)); [discriminate | apply IH].
Qed.

Lemma concat_cons (sep x : string) (l : list string) :
  l <> [] -> String.concat sep (x :: l) = x ++ sep ++ String.concat sep l.
Proof. destruct l; [congruence | reflexivity]. Qed.

Lemma prefix_char (c x : ascii) (t : string) :
  prefix (String c "") (String x t) = Ascii.eqb c x.
Proof.
  simpl. destruct (ascii_dec c x) as [->|Hne].
  - rewrite Ascii.eqb_refl. now destruct t.
  - apply Ascii.eqb_neq in Hne. now rewrite Hne.
Qed.

(** The pieces joined by the separator give the text back. *)
Lemma split_char_concat (c : ascii) (s cur : string) :
  String.concat (String c "") (split_go (String c "") O cur s) = cur ++ s.
Proof.
  revert cur. induction s as [|x s IH]; intros cur.
  - simpl. now rewrite str_app_nil_r.
  - cbn [split_go]. rewrite prefix_char. destruct (Ascii.eqb c x) eqn:E.
    + apply Ascii.eqb_eq in E. subst x. cbn [String.length Nat.pred].
      rewrite concat_cons by apply split_go_not_nil.
      rewrite IH. reflexivity.
    + rewrite IH, str_app_assoc. reflexivity.
Qed.

Lemma is_substring_char (c : ascii) (s : string) :
  is_substring (String c "") s = str_existsb (Ascii.eqb c) s.
Proof.
  induction s as [|x s IH]; [reflexivity|].
  cbn [is_substring str_existsb]. now rewrite prefix_char, IH.
Qed.

Lemma str_existsb_app (p : ascii -> bool) (a b : string) :
  str_existsb p (a ++ b) = (str_existsb p a || str_existsb p b)%bool.
Proof.
  induction a as [|x a IH]; simpl; [reflexivity|].
  now rewrite IH, orb_assoc.
Qed.

(** No piece holds the separator. *)
Lemma split_char_pieces (c : ascii) (s cur : string) :
  str_existsb (Ascii.eqb c) cur = false ->
  Forall (fun p => is_substring (String c "") p = false)
         (split_go (String c "") O cur s).
Proof.
  revert cur. induction s as [|x s IH]; intros cur Hcur.
  - constructor; [|constructor]. now rewrite is_substring_char.
  - cbn [split_go]. rewrite prefix_char. destruct (Ascii.eqb c x) eqn:E.
    + constructor; [now rewrite is_substring_char|].
      apply IH. reflexivity.
    + apply IH. rewrite str_existsb_app, Hcur. simpl. now rewrite E.
Qed.

(** One piece more than there are separators: at least two when the
    separator occurs. *)
Lemma split_char_length (c : ascii) (s cur : string) :
  str_existsb (Ascii.eqb c) s = true ->
  (2 <= List.length (split_go (String c "") O cur s))%nat.
Proof.
  revert cur. induction s as [|x s IH]; intros cur H; [discriminate|].
  cbn [split_go]. rewrite prefix_char. cbn [str_existsb] in H.
  destruct (Ascii.eqb c x) eqn:E.
  - cbn [List.length String.length Nat.pred].
    pose proof (split_go_not_nil (String c "") O "" s) as Hne.
    destruct (split_go (String c "") O "" s); [congruence | simpl; lia].
  - simpl in H. now apply IH.
Qed.

(** ** The error monad *)

Lemma mapM_Forall2 {A B : Type} (f : A -> exc B) (l : list A) (l' : list B) :
  Forall2 (fun x y => f x = Ok y) l l' -> mapM f l = Ok l'.
Proof.
  induction 1 as [|x y l l' Hxy _ IH]; simpl; [reflexivity|].
  now rewrite Hxy, IH.
Qed.

Lemma mapM_map {A B C : Type} (f : B -> exc C) (g : A -> B) (l : list A) :
  mapM f (map g l) = mapM (fun x => f (g x)) l.
Proof.
  induction l as [|x l IH]; simpl; [reflexivity | now rewrite IH].
Qed.

Lemma mapM_ok {A B : Type} (f : A -> exc B) (g : A -> B) (l : list A) :
  (forall x, f x = Ok (g x)) -> mapM f l = Ok (map g l).
Proof.
  intros H. induction l as [|x l IH]; simpl; [reflexivity|].
  now rewrite H, IH.
Qed.

(** ** Genres *)

Lemma genre_entries_spec (g : pyval) (n : string) :
  py_getitem g "name" = Ok (PStr n) ->
  exists es, genre_entries g = Ok es /\ split_entries n es.
Proof.
  intros Hn. unfold genre_entries. rewrite Hn. cbn [bind py_contains].
  fold amp. destruct (is_substring amp n) eqn:E.
  - cbn [py_split_method bind]. eexists. split; [reflexivity|].
    split; [|congruence]. intros _.
    exists (py_split amp n). unfold py_split, amp in *.
    rewrite is_substring_char in E.
    repeat split.
    + apply (split_char_concat _ n "").
    + apply split_char_pieces. reflexivity.
    + now apply split_char_length.
  - eexists. split; [reflexivity|]. split; [congruence | reflexivity].
Qed.

Lemma filter_isalnum_chars (n : string) :
  filterM py_isalnum (map PStr (chars n))
  = Ok (map PStr (chars (str_filter isalnum n))).
Proof.
  induction n as [|c n IH]; [reflexivity|].
  cbn [chars map filterM py_isalnum bind str_forallb String.eqb negb andb].
  rewrite IH. cbn [bind str_filter]. rewrite andb_true_r.
  destruct (isalnum c); reflexivity.
Qed.

Lemma join_chars (s : string) : py_join "" (map PStr (chars s)) = Ok s.
Proof.
  unfold py_join. rewrite mapM_map.
  rewrite (mapM_ok _ (fun x => x)) by reflexivity.
  cbn [bind]. f_equal. rewrite map_id.
  induction s as [|c s IH]; [reflexivity|].
  cbn [chars]. destruct (chars s) eqn:E.
  - destruct s; [reflexivity | discriminate].
  - cbn [String.concat] in *. now rewrite IH.
Qed.

Lemma genre_tag_str (n : string) : genre_tag (PStr n) = Ok (tag_of n).
Proof.
  unfold genre_tag. cbn [py_iter bind].
  rewrite filter_isalnum_chars. cbn [bind].
  now rewrite join_chars.
Qed.

Lemma genres_str_of_named (data : pyval) (names : list string) :
  genres_named data names ->
  genres_str_of data = Ok (String.concat " " (map tag_of names)).
Proof.
  intros (items & Hget & Hnames). unfold genres_str_of.
  rewrite Hget. cbn [bind py_iter].
  rewrite (mapM_Forall2 _ items (map PStr names)).
  2:{ clear Hget. induction Hnames; constructor; assumption. }
  cbn [bind]. rewrite mapM_map.
  rewrite (mapM_ok _ tag_of) by apply genre_tag_str.
  reflexivity.
Qed.

Lemma tag_of_solid (n : string) : ends_solid (tag_of n).
Proof.
  split; [|discriminate]. apply rstrip_no_space.
  unfold tag_of. cbn. apply str_filter_alnum_no_space.
Qed.

Lemma tags_solid (names : list string) :
  names <> [] -> ends_solid (String.concat " " (map tag_of names)).
Proof.
  induction names as [|n names IH]; [congruence|]. intros _.
  destruct names as [|m names].
  - apply tag_of_solid.
  - change (ends_solid (tag_of n ++ " " ++ String.concat " " (map tag_of (m :: names)))).
    apply ends_solid_app, ends_solid_app, IH. discriminate.
Qed.

(** ** The formatter *)

Ltac bind_step H :=
  match type of H with
  | bind ?m _ = Ok _ =>
      let E := fresh "E" in
      destruct m eqn:E; cbn [bind] in H; [|discriminate H]
  | (if ?b then _ else _) = Ok _ =>
      let E := fresh "E" in destruct b eqn:E
  end.

Lemma available_solid : ends_solid available.
Proof. split; [reflexivity | discriminate]. Qed.

Lemma ends_solid_cons (c : ascii) (s : string) :
  ends_solid s -> ends_solid (String c s).
Proof. apply (ends_solid_app (String c "") s). Qed.

(** Every header starts and ends with a character [strip] keeps. *)
Lemma header_of_solid (tmdb_type : string) (season episode : option Z)
    (data : pyval) (h : string) :
  header_of tmdb_type season episode data = Ok h ->
  lstrip h = h /\ ends_solid h.
Proof.
  unfold header_of. intros H.
  repeat bind_step H; injection H as <-;
    (split; [reflexivity|]);
    first [ solve [split; [reflexivity | discriminate]]
          | repeat first [ apply available_solid
                         | apply ends_solid_app
                         | apply ends_solid_cons ] ].
Qed.

Lemma format_short (tmdb_type : string) (season episode : option Z)
    (directors_str stars_str : string) (data plot : pyval) (h g : string) :
  above_one season || above_one episode = true ->
  header_of tmdb_type season episode data = Ok h ->
  genres_str_of data = Ok g ->
  format_tmdb_info tmdb_type season episode directors_str stars_str data plot
  = Ok (h ++ rstrip (nl2 ++ g)).
Proof.
  intros Hc Hh Hg. unfold format_tmdb_info. rewrite Hh, Hg. cbn [bind].
  rewrite Hc. destruct (header_of_solid _ _ _ _ _ Hh) as [Hl Hs].
  now rewrite (py_strip_after h _ Hl Hs).
Qed.

Lemma format_full (tmdb_type : string) (season episode : option Z)
    (directors_str stars_str : string) (data plot : pyval) (h g : string) :
  above_one season || above_one episode = false ->
  header_of tmdb_type season episode data = Ok h ->
  genres_str_of data = Ok g ->
  format_tmdb_info tmdb_type season episode directors_str stars_str data plot
  = Ok (h ++ rstrip (nl2 ++ plot_section plot ++ stars_section stars_str
                     ++ directors_section directors_str ++ g)).
Proof.
  intros Hc Hh Hg. unfold format_tmdb_info. rewrite Hh, Hg. cbn [bind].
  rewrite Hc. destruct (header_of_solid _ _ _ _ _ Hh) as [Hl Hs].
  cbv zeta. rewrite !str_app_assoc.
  rewrite (py_strip_after h _ Hl Hs).
  unfold plot_section, stars_section, directors_section.
  destruct (String.eqb stars_str ""), (String.eqb directors_str "");
    reflexivity.
Qed.

(** With at least one genre nothing is left to trim: the tags end the
    message. *)
Lemma rstrip_before_tags (x : string) (names : list string) :
  names <> [] ->
  rstrip (x ++ String.concat " " (map tag_of names))
  = x ++ String.concat " " (map tag_of names).
Proof.
  intros Hne. apply (ends_solid_app x _ (tags_solid names Hne)).
Qed.

Lemma above_one_gt_one (n : option Z) : above_one n = true <-> gt_one n.
Proof.
  unfold gt_one. destruct n as [k|]; simpl.
  - split.
    + intros H. apply andb_prop in H as [_ H]. exists k. split; [reflexivity | lia].
    + intros (k' & [= <-] & Hk).
      apply andb_true_intro. split; [apply negb_true_iff|]; lia.
  - split; [discriminate | intros (k & [=] & _)].
Qed.

Lemma later_above_one (season episode : option Z) :
  gt_one season \/ gt_one episode ->
  above_one season || above_one episode = true.
Proof.
  intros [H|H]; apply above_one_gt_one in H; rewrite H;
    [reflexivity | apply orb_true_r].
Qed.

Lemma not_later_above_one (season episode : option Z) :
  ~ gt_one season -> ~ gt_one episode ->
  above_one season || above_one episode = false.
Proof.
  intros Hs He. apply orb_false_intro.
  - destruct (above_one season) eqn:E; [|reflexivity].
    now apply above_one_gt_one in E.
  - destruct (above_one episode) eqn:E; [|reflexivity].
    now apply above_one_gt_one in E.
Qed.

(** C3, as stated, fails: the formatter reads the raw genre names of the
    payload, not the list [extract_genres] made, so ["Sci-Fi & Fantasy"]
    becomes the single tag [#SciFiFantasy] although the extractor splits
    it in two. *)
Lemma C3_counterexample :
  extract_genres scifi_data = Ok [PStr "Sci-Fi"; PStr "Fantasy"]
  /\ genres_str_of scifi_data = Ok "#SciFiFantasy"
  /\ format_tmdb_info "movie" None None "Unknown" "Unknown" scifi_data (PStr "")
     = Ok ("<b>Dune ()</b> is now available!" ++ nl2
           ++ "<b>Stars:</b> Unknown" ++ nl2
           ++ "<b>Directors:</b> Unknown" ++ nl2 ++ "#SciFiFantasy").
Proof. repeat split; reflexivity. Qed.

(** C3 (amended): the genre tags of the message are, for each genre name of
    the payload in order, ['#'] followed by the name with every
    non-alphanumeric character removed, joined by one space: one tag per
    genre, ['&'] removed like any other such character; with at least one
    genre these tags end the message. *)
Theorem C3_genre_tags (data : pyval) (names : list string) :
  genres_named data names ->
  genres_str_of data = Ok (String.concat " " (map tag_of names))
  /\ Forall (fun n => tag_of n = "#" ++ str_filter isalnum n
                      /\ str_forallb isalnum (str_filter isalnum n) = true)
            names
  /\ forall tmdb_type season episode directors_str stars_str plot h,
       header_of tmdb_type season episode data = Ok h ->
       names <> [] ->
       exists body,
         format_tmdb_info tmdb_type season episode directors_str stars_str
                          data plot
         = Ok (h ++ body ++ String.concat " " (map tag_of names)).
Proof.
  intros Hn. pose proof (genres_str_of_named data names Hn) as Hg.
  split; [exact Hg|]. split.
  - apply Forall_forall. intros n _. split; [reflexivity|].
    apply str_filter_alnum_all.
  - intros ty s e ds ss plot h Hh Hne.
    destruct (above_one s || above_one e) eqn:Hc.
    + exists nl2. rewrite (format_short _ _ _ ds ss _ plot h _ Hc Hh Hg).
      now rewrite rstrip_before_tags.
    + exists (nl2 ++ plot_section plot ++ stars_section ss
                  ++ directors_section ds).
      rewrite (format_full _ _ _ ds ss _ plot h _ Hc Hh Hg).
      assert (ends_solid (nl2 ++ plot_section plot ++ stars_section ss
                              ++ directors_section ds
                              ++ String.concat " " (map tag_of names)))
        as [-> _] by (do 4 apply ends_solid_app; now apply tags_solid).
      now rewrite !str_app_assoc.
Qed.

Lemma scifi_named : genres_named scifi_data ["Sci-Fi & Fantasy"].
Proof. eexists. split; [reflexivity | repeat constructor]. Qed.

Lemma C3_witness :
  genres_named scifi_data ["Sci-Fi & Fantasy"]
  /\ genres_str_of scifi_data = Ok "#SciFiFantasy".
Proof.
  split; [exact scifi_named|].
  exact (proj1 (C3_genre_tags scifi_data ["Sci-Fi & Fantasy"] scifi_named)).
Defined.

(** C4: a series call with [season > 1] or [episode > 1] returns the
    header, a blank line and the genre tags, and nothing that depends on
    the plot, the stars or the directors.  The result is stripped, which
    changes nothing when there is a genre and leaves the header alone when
    there is none. *)
Theorem C4_later_episode_body (season episode : option Z)
    (directors_str stars_str : string) (data plot : pyval)
    (names : list string) (header : string) :
  gt_one season \/ gt_one episode ->
  header_of "tv" season episode data = Ok header ->
  genres_named data names ->
  format_tmdb_info "tv" season episode directors_str stars_str data plot
  = Ok (py_strip (header ++ nl2 ++ String.concat " " (map tag_of names)))
  /\ (names <> [] ->
      format_tmdb_info "tv" season episode directors_str stars_str data plot
      = Ok (header ++ nl2 ++ String.concat " " (map tag_of names)))
  /\ (names = [] ->
      format_tmdb_info "tv" season episode directors_str stars_str data plot
      = Ok header)
  /\ forall directors_str' stars_str' plot',
       format_tmdb_info "tv" season episode directors_str' stars_str' data plot'
       = format_tmdb_info "tv" season episode directors_str stars_str data plot.
Proof.
  intros Hlater Hh Hn. apply later_above_one in Hlater.
  pose proof (genres_str_of_named data names Hn) as Hg.
  destruct (header_of_solid _ _ _ _ _ Hh) as [Hl Hs].
  assert (forall ds ss p,
             format_tmdb_info "tv" season episode ds ss data p
             = Ok (header
                   ++ rstrip (nl2 ++ String.concat " " (map tag_of names))))
    as Hshort by (intros; now apply format_short).
  repeat split.
  - rewrite Hshort. now rewrite py_strip_after.
  - intros Hne. rewrite Hshort. now rewrite rstrip_before_tags.
  - intros ->. rewrite Hshort. cbn. now rewrite str_app_nil_r.
  - intros. now rewrite !Hshort.
Qed.

Lemma gt_one_2 : gt_one (Some 2).
Proof. exists 2. split; [reflexivity | lia]. Qed.

Lemma show_named : genres_named show_data ["Drama"].
Proof. eexists. split; [reflexivity | repeat constructor]. Qed.

Lemma C4_witness :
  (gt_one (Some 1) \/ gt_one (Some 2))
  /\ header_of "tv" (Some 1) (Some 2) show_data
     = Ok "<b>Show S01E02</b> is now available!"
  /\ genres_named show_data ["Drama"]
  /\ format_tmdb_info "tv" (Some 1) (Some 2) "Denis" "Ann, Bob" show_data
                      (PStr "A plot.")
     = Ok ("<b>Show S01E02</b> is now available!" ++ nl2 ++ "#Drama").
Proof.
  split; [right; exact gt_one_2|].
  split; [reflexivity|].
  split; [exact show_named|].
  refine (proj1 (proj2 (C4_later_episode_body
                          (Some 1) (Some 2) "Denis" "Ann, Bob" show_data
                          (PStr "A plot.") ["Drama"] _
                          (or_intror gt_one_2) eq_refl show_named)) _).
  discriminate.
Defined.

Lemma py_get_found (data : pyval) (k : string) (v d : pyval) :
  py_get data k PNone = Ok v -> py_truthy v = true -> py_get data k d = Ok v.
Proof.
  destruct data; try discriminate. cbn [py_get].
  destruct (dict_get k d0); [tauto|].
  intros [= <-]. discriminate.
Qed.

Lemma header_of_movie (season episode : option Z) (data title rd : pyval) :
  py_get data "title" (PStr "") = Ok title ->
  py_get data "release_date" PNone = Ok rd ->
  (exists d, rd = PStr d) \/ py_truthy rd = false ->
  header_of "movie" season episode data
  = Ok (movie_header (py_str title) (year_text rd)).
Proof.
  intros Ht Hrd Hshape. unfold header_of, year_of.
  cbn [String.eqb Ascii.eqb Bool.eqb]. rewrite Ht, Hrd. cbn [bind].
  destruct (py_truthy rd) eqn:Etr.
  - rewrite (py_get_found _ _ _ _ Hrd Etr). cbn [bind].
    destruct Hshape as [[d ->]|]; [reflexivity | discriminate].
  - cbn [bind]. destruct Hshape as [[d ->]|_].
    + destruct d; [reflexivity | discriminate].
    + destruct rd; try reflexivity; try discriminate.
      destruct s; [reflexivity | discriminate].
Qed.

(** C5, as stated, fails: with no release date the parentheses stay, and
    are empty. *)
Lemma C5_counterexample :
  header_of "movie" None None (PDict [("title", PStr "Dune")])
  = Ok "<b>Dune ()</b> is now available!"
  /\ format_tmdb_info "movie" None None "Unknown" "Unknown"
                      (PDict [("title", PStr "Dune")]) (PStr "")
     = Ok ("<b>Dune ()</b> is now available!" ++ nl2
           ++ "<b>Stars:</b> Unknown" ++ nl2 ++ "<b>Directors:</b> Unknown").
Proof. split; reflexivity. Qed.

(** C5 (amended): the message of a movie starts with the header
    [<b>Title (Year)</b> is now available!], where Year is the first four
    characters of the release date; when the release date is absent or
    empty Year is empty and the parentheses stay: [<b>Title ()</b> ...]. *)
Theorem C5_movie_header (season episode : option Z)
    (directors_str stars_str : string) (data plot title rd : pyval)
    (g : string) :
  py_get data "title" (PStr "") = Ok title ->
  py_get data "release_date" PNone = Ok rd ->
  (exists d, rd = PStr d) \/ py_truthy rd = false ->
  genres_str_of data = Ok g ->
  (exists rest,
      format_tmdb_info "movie" season episode directors_str stars_str data plot
      = Ok (movie_header (py_str title) (year_text rd) ++ rest))
  /\ (py_truthy rd = false ->
      movie_header (py_str title) (year_text rd)
      = "<b>" ++ py_str title ++ " ()</b> is now available!").
Proof.
  intros Ht Hrd Hshape Hg.
  pose proof (header_of_movie season episode data title rd Ht Hrd Hshape) as Hh.
  split.
  - destruct (above_one season || above_one episode) eqn:Hc.
    + eexists. exact (format_short _ _ _ _ _ _ _ _ _ Hc Hh Hg).
    + eexists. exact (format_full _ _ _ _ _ _ _ _ _ Hc Hh Hg).
  - intros Hf. destruct rd; try reflexivity; try discriminate.
    destruct s; [reflexivity | discriminate].
Qed.

Lemma C5_witness :
  py_get dune_data "title" (PStr "") = Ok (PStr "Dune")
  /\ py_get dune_data "release_date" PNone = Ok (PStr "2021-09-15")
  /\ genres_str_of dune_data = Ok ""
  /\ movie_header "Dune" (year_text (PStr "2021-09-15"))
     = "<b>Dune (2021)</b> is now available!"
  /\ exists rest,
       format_tmdb_info "movie" None None "Denis" "Ann, Bob" dune_data
                        (PStr "A plot.")
       = Ok ("<b>Dune (2021)</b> is now available!" ++ rest).
Proof.
  repeat (split; [reflexivity|]).
  exact (proj1 (C5_movie_header None None "Denis" "Ann, Bob" dune_data
                  (PStr "A plot.") (PStr "Dune") (PStr "2021-09-15") ""
                  eq_refl eq_refl
                  (or_introl (ex_intro _ "2021-09-15" eq_refl)) eq_refl)).
Defined.

(** C7, as stated, fails: a name without ['&'] is appended as it is, so an
    entry can differ from its trimmed name. *)
Lemma C7_counterexample :
  is_substring amp " Drama " = false
  /\ extract_genres padded_data = Ok [PStr " Drama "]
  /\ py_strip " Drama " = "Drama".
Proof. repeat split; reflexivity. Qed.

(** C7 (amended): the extractor returns, in the order of the payload and
    without removing duplicates, the entries of each genre name: for a name
    containing ['&'] the pieces between the ['&'] characters, at least two,
    each trimmed; for a name without ['&'] the name itself, unchanged (not
    trimmed). *)
Theorem C7_extract_genres_split (data : pyval) (names : list string) :
  genres_named data names ->
  exists added,
    extract_genres data = Ok (concat added)
    /\ Forall2 split_entries names added.
Proof.
  intros (items & Hget & Hnames). unfold extract_genres.
  rewrite Hget. cbn [bind py_iter].
  assert (exists added, mapM genre_entries items = Ok added
                        /\ Forall2 split_entries names added)
    as (added & -> & Hadded).
  { clear Hget. induction Hnames as [|g n items names Hg _ IH].
    - exists []. split; [reflexivity | constructor].
    - destruct IH as (added & IH & Hadded).
      destruct (genre_entries_spec g n Hg) as (es & Hes & Hsplit).
      exists (es :: added). cbn [mapM]. rewrite Hes, IH.
      split; [reflexivity | now constructor]. }
  exists added. split; [reflexivity | assumption].
Qed.

Lemma C7_witness :
  genres_named scifi_data ["Sci-Fi & Fantasy"]
  /\ exists added,
       extract_genres scifi_data = Ok (concat added)
       /\ Forall2 split_entries ["Sci-Fi & Fantasy"] added.
Proof.
  split; [exact scifi_named|].
  exact (C7_extract_genres_split scifi_data ["Sci-Fi & Fantasy"] scifi_named).
Defined.

(** C6 fails on the code: a genre entry without ['name'] makes
    [extract_genres], and the tag rendering of [format_tmdb_info], raise
    [KeyError('name')]. *)
Theorem C6_genre_without_name_raises :
  extract_genres nameless_genre_data = Raise (KeyError (PStr "name"))
  /\ format_tmdb_info "movie" None None "Unknown" "Unknown"
                      nameless_genre_data (PStr "")
     = Raise (KeyError (PStr "name")).
Proof. split; reflexivity. Qed.

(** The sibling extractors read every field with [get], and so return on
    dict payloads whose entries are dicts, whatever keys are missing. *)

Lemma person_total (d : list (string * pyval)) :
  exists p, person (PDict d) = Ok p.
Proof. unfold person. cbn [py_get bind]. eexists. reflexivity. Qed.

Lemma mapM_person_total (l : list pyval) :
  Forall is_dict l -> exists ps, mapM person l = Ok ps.
Proof.
  induction 1 as [|x l [d ->] _ [ps IH]]; [exists []; reflexivity|].
  destruct (person_total d) as [p Hp].
  exists (p :: ps). cbn [mapM]. now rewrite Hp, IH.
Qed.

Lemma crew_directors_total (l : list pyval) :
  Forall is_dict l -> exists ds, crew_directors l = Ok ds.
Proof.
  induction 1 as [|x l [d ->] _ [ds IH]]; [exists []; reflexivity|].
  cbn [crew_directors py_get bind].
  destruct (py_eq_str _ "Director"); [|now exists ds].
  destruct (person_total d) as [p Hp]. rewrite Hp, IH.
  now exists (p :: ds).
Qed.

Lemma Forall_firstn {A : Type} (P : A -> Prop) (n : nat) (l : list A) :
  Forall P l -> Forall P (firstn n l).
Proof.
  intros H. revert n. induction H; intros [|n]; simpl; constructor; auto.
Qed.

Lemma extract_stars_total (d : list (string * pyval)) (limit : nat) :
  dicts_or_absent (dict_get "cast" d) ->
  exists stars, extract_stars (PDict d) limit = Ok stars.
Proof.
  unfold extract_stars. cbn [py_get bind].
  destruct (dict_get "cast" d) as [v|]; cbn [dicts_or_absent].
  - intros (l & -> & Hl). destruct l as [|x l]; [now exists []|].
    cbn [py_truthy negb py_slice bind py_iter].
    apply mapM_person_total. now apply Forall_firstn.
  - intros _. now exists [].
Qed.

Lemma extract_directors_total (tmdb_type : string)
    (data credits : list (string * pyval)) :
  dicts_or_absent (dict_get "crew" credits) ->
  dicts_or_absent (dict_get "created_by" data) ->
  exists ds, extract_directors tmdb_type (PDict data) (PDict credits) = Ok ds.
Proof.
  intros Hcrew Hby. unfold extract_directors.
  destruct (String.eqb tmdb_type "movie").
  - cbn [py_get bind]. destruct (dict_get "crew" credits) as [v|].
    + destruct Hcrew as (l & -> & Hl). now apply crew_directors_total.
    + now exists [].
  - destruct (String.eqb tmdb_type "tv"); [|now exists []].
    cbn [py_get bind]. destruct (dict_get "created_by" data) as [v|].
    + destruct Hby as (l & -> & Hl). now apply mapM_person_total.
    + now exists [].
Qed.

Lemma language_names_total (l : list pyval) :
  Forall language_entry l ->
  exists names ss,
    mapM (fun lang => py_get lang "english_name" (PStr "Unknown")) l = Ok names
    /\ mapM as_str names = Ok ss.
Proof.
  induction 1 as [|x l (d & -> & Hn) _ (names & ss & IH1 & IH2)].
  - exists [], []. split; reflexivity.
  - cbn [mapM py_get bind]. rewrite IH1. cbn [bind].
    destruct (dict_get "english_name" d) as [n|].
    + destruct Hn as [s ->]. exists (PStr s :: names), (s :: ss).
      split; [reflexivity|]. cbn [mapM as_str bind]. now rewrite IH2.
    + exists (PStr "Unknown" :: names), ("Unknown" :: ss).
      split; [reflexivity|]. cbn [mapM as_str bind]. now rewrite IH2.
Qed.

Lemma extract_language_total (data : list (string * pyval)) :
  match dict_get "spoken_languages" data with
  | None => True
  | Some v => exists l, v = PList l /\ Forall language_entry l
  end ->
  exists language, extract_language (PDict data) = Ok language.
Proof.
  unfold extract_language. cbn [py_get bind].
  destruct (dict_get "spoken_languages" data) as [v|]; [|now eexists].
  intros (l & -> & Hl). destruct l as [|x l]; [now eexists|].
  cbn [py_truthy py_iter bind]. unfold py_join.
  destruct (language_names_total _ Hl) as (names & ss & -> & Hss).
  cbn [bind]. rewrite Hss. now eexists.
Qed.

(** ** Auxiliary lookups *)

(** C1, as stated, fails: an exception of the trailer request, or of the
    external-identifier request of a series, is caught nowhere before the
    handler of [get_by_id], and the result is the error result. *)
Lemma C1_counterexample :
  get_trailer_url (dune_world (Raise disconnected)) "movie" 438631
  = Raise disconnected
  /\ get_by_id (dune_world (Raise disconnected)) "movie" 438631 None None
     = ErrorResult disconnected
  /\ get_tv_imdb_id (show_world (Raise disconnected)) (PInt 1399)
     = Raise disconnected
  /\ get_by_id (show_world (Raise disconnected)) "tv" 1399 None None
     = ErrorResult disconnected.
Proof. repeat split; reflexivity. Qed.

Lemma get_trailer_url_not_200 (w : world) (tmdb_type : string) (tmdb_id : Z)
    (resp : response) :
  session_get w (video_url w tmdb_type tmdb_id) = Ok resp ->
  status resp <> 200 ->
  get_trailer_url w tmdb_type tmdb_id = Ok PNone.
Proof.
  intros Hget Hst. unfold get_trailer_url. rewrite Hget. cbn [bind].
  apply Z.eqb_neq in Hst. now rewrite Hst.
Qed.

Ltac bind_goal :=
  match goal with
  | |- context [bind ?m _] =>
      let E := fresh "E" in destruct m eqn:E; cbn [bind]
  end.

Lemma trailer_raise_is_fatal (w : world) (tmdb_type : string) (tmdb_id : Z)
    (season episode : option Z) (e : exn) :
  get_trailer_url w tmdb_type tmdb_id = Raise e ->
  exists e', get_by_id w tmdb_type tmdb_id season episode = ErrorResult e'.
Proof.
  intros Ht. unfold get_by_id, get_by_id_body.
  do 8 (bind_goal; [|now eexists]).
  rewrite Ht. cbn [bind]. now eexists.
Qed.

Lemma tv_imdb_id_raise_is_fatal (w : world) (tmdb_id : Z)
    (season episode : option Z) (resp : response) (data imdb_id tv_id : pyval)
    (e : exn) :
  session_get w (api_url w "tv" tmdb_id) = Ok resp ->
  json resp = Ok data ->
  py_get data "imdb_id" PNone = Ok imdb_id ->
  py_truthy imdb_id = false ->
  py_get data "id" PNone = Ok tv_id ->
  get_tv_imdb_id w tv_id = Raise e ->
  exists e', get_by_id w "tv" tmdb_id season episode = ErrorResult e'.
Proof.
  intros Hget Hjson Himdb Hfalsy Hid Hraise.
  unfold get_by_id, get_by_id_body. rewrite Hget. cbn [bind].
  do 2 (bind_goal; [|now eexists]). rewrite Hjson. cbn [bind].
  do 12 (bind_goal; [|now eexists]).
  unfold resolve_imdb_id. rewrite Himdb. cbn [bind].
  rewrite Hfalsy. cbn [String.eqb Ascii.eqb Bool.eqb negb andb].
  rewrite Hid. cbn [bind]. rewrite Hraise. cbn [bind]. now eexists.
Qed.

Lemma get_by_id_trailer (w : world) (tmdb_type : string) (tmdb_id : Z)
    (season episode : option Z) (r : announcement) :
  get_by_id w tmdb_type tmdb_id season episode = Populated r ->
  get_trailer_url w tmdb_type tmdb_id = Ok (trailer_url r)
  /\ md_trailer_url (mongo r) = trailer_url r.
Proof.
  unfold get_by_id. destruct (get_by_id_body _ _ _ _ _) as [r'|] eqn:H;
    [|discriminate].
  intros [= ->]. unfold get_by_id_body in H.
  repeat bind_step H. injection H as <-. now split.
Qed.

Lemma get_tv_imdb_id_absent (w : world) (tv_id : pyval) (resp : response)
    (body v : pyval) :
  session_get w (external_ids_url w tv_id) = Ok resp ->
  json resp = Ok body ->
  py_get body "imdb_id" PNone = Ok v ->
  get_tv_imdb_id w tv_id = Ok v.
Proof.
  intros Hget Hjson Hv. unfold get_tv_imdb_id.
  rewrite Hget. cbn [bind]. now rewrite Hjson.
Qed.

Lemma resolve_plot_no_id (w : world) (data imdb_id : pyval) :
  py_truthy imdb_id = false ->
  resolve_plot w data imdb_id = py_get data "overview" (PStr "").
Proof. intros H. unfold resolve_plot. now rewrite H. Qed.

(** C1 (amended): a trailer lookup that fails with a status other than 200
    is swallowed locally: it raises nothing, the trailer resolves to
    absent, and so it is in every populated result; an external-identifier
    lookup of a series whose answer carries no identifier is swallowed
    locally too: it raises nothing, the identifier resolves to absent and
    the plot is the overview.  (Exceptions raised by the two requests are
    not part of this statement.) *)
Theorem C1_auxiliary_lookups (w : world) (tmdb_type : string) (tmdb_id : Z) :
  (forall resp,
      session_get w (video_url w tmdb_type tmdb_id) = Ok resp ->
      status resp <> 200 ->
      get_trailer_url w tmdb_type tmdb_id = Ok PNone
      /\ forall season episode r,
           get_by_id w tmdb_type tmdb_id season episode = Populated r ->
           trailer_url r = PNone /\ md_trailer_url (mongo r) = PNone)
  /\ (forall tv_id resp body v data,
         session_get w (external_ids_url w tv_id) = Ok resp ->
         json resp = Ok body ->
         py_get body "imdb_id" PNone = Ok v ->
         py_truthy v = false ->
         get_tv_imdb_id w tv_id = Ok v
         /\ resolve_plot w data v = py_get data "overview" (PStr "")).
Proof.
  split.
  - intros resp Hget Hst.
    pose proof (get_trailer_url_not_200 w tmdb_type tmdb_id resp Hget Hst) as Ht.
    split; [exact Ht|]. intros season episode r Hr.
    destruct (get_by_id_trailer _ _ _ _ _ _ Hr) as [Ht' Hmd].
    rewrite Ht in Ht'. injection Ht' as Ht'. rewrite Hmd, <- Ht'. now split.
  - intros tv_id resp body v data Hget Hjson Hv Hfalsy. split.
    + exact (get_tv_imdb_id_absent w tv_id resp body v Hget Hjson Hv).
    + now apply resolve_plot_no_id.
Qed.

Lemma C1_witness :
  session_get (dune_world (served 404 not_found_body))
              (video_url (dune_world (served 404 not_found_body)) "movie" 438631)
  = served 404 not_found_body
  /\ get_trailer_url (dune_world (served 404 not_found_body)) "movie" 438631
     = Ok PNone
  /\ (exists r,
         get_by_id (dune_world (served 404 not_found_body)) "movie" 438631
                   None None = Populated r
         /\ trailer_url r = PNone)
  /\ get_tv_imdb_id (show_world (served 404 not_found_body)) (PInt 1399)
     = Ok PNone
  /\ exists r,
       get_by_id (show_world (served 404 not_found_body)) "tv" 1399 None None
       = Populated r.
Proof.
  split; [reflexivity|]. split; [|split; [|split]].
  - refine (proj1 (proj1 (C1_auxiliary_lookups
                            (dune_world (served 404 not_found_body))
                            "movie" 438631) _ eq_refl _)).
    discriminate.
  - eexists. split; reflexivity.
  - exact (proj1 (proj2 (C1_auxiliary_lookups
                           (show_world (served 404 not_found_body))
                           "tv" 1399)
                     (PInt 1399) _ not_found_body PNone PNone
                     eq_refl eq_refl eq_refl eq_refl)).
  - eexists. reflexivity.
Defined.

(** ** The full body *)

Lemma rstrip_mid (x lit y : string) :
  ends_solid lit -> rstrip (x ++ lit ++ y) = x ++ lit ++ rstrip y.
Proof.
  intros Hlit. rewrite <- str_app_assoc.
  rewrite (rstrip_solid_app (x ++ lit) y (proj1 (ends_solid_app x lit Hlit))).
  apply str_app_assoc.
Qed.

Lemma format_inv (tmdb_type : string) (season episode : option Z)
    (directors_str stars_str : string) (data plot : pyval) (m : string) :
  format_tmdb_info tmdb_type season episode directors_str stars_str data plot
  = Ok m ->
  exists h g,
    header_of tmdb_type season episode data = Ok h
    /\ genres_str_of data = Ok g.
Proof.
  unfold format_tmdb_info. intros H.
  do 2 bind_step H. now eexists _, _.
Qed.

Lemma get_by_id_inv (w : world) (tmdb_type : string) (tmdb_id : Z)
    (season episode : option Z) (r : announcement) :
  get_by_id w tmdb_type tmdb_id season episode = Populated r ->
  exists data plot directors_str stars_str,
    names_str (md_directors (mongo r)) = Ok directors_str
    /\ names_str (md_stars (mongo r)) = Ok stars_str
    /\ format_tmdb_info tmdb_type season episode directors_str stars_str
                        data plot = Ok (message r).
Proof.
  unfold get_by_id. destruct (get_by_id_body _ _ _ _ _) as [r'|] eqn:H;
    [|discriminate].
  intros [= ->]. unfold get_by_id_body in H.
  repeat bind_step H. injection H as <-. cbn [mongo md_directors md_stars message].
  eauto 10.
Qed.

Lemma unknown_lines_appear (w : world) (tmdb_type : string) (tmdb_id : Z)
    (season episode : option Z) (r : announcement) :
  ~ gt_one season -> ~ gt_one episode ->
  get_by_id w tmdb_type tmdb_id season episode = Populated r ->
  (md_stars (mongo r) = [] ->
   exists pre post, message r = pre ++ stars_unknown ++ post)
  /\ (md_directors (mongo r) = [] ->
      exists pre post, message r = pre ++ directors_unknown ++ post).
Proof.
  intros Hs He Hr.
  destruct (get_by_id_inv _ _ _ _ _ _ Hr) as (data & plot & ds & ss & Hds & Hss & Hf).
  destruct (format_inv _ _ _ _ _ _ _ _ Hf) as (h & g & Hh & Hg).
  pose proof (not_later_above_one _ _ Hs He) as Hc.
  rewrite (format_full _ _ _ ds ss _ plot h g Hc Hh Hg) in Hf.
  injection Hf as Hm. split.
  - intros Hnil. rewrite Hnil in Hss. injection Hss as <-.
    exists (h ++ nl2 ++ plot_section plot),
           (rstrip (nl2 ++ directors_section ds ++ g)).
    rewrite <- Hm.
    change (stars_section "Unknown") with (stars_unknown ++ nl2).
    rewrite (str_app_assoc h). f_equal.
    rewrite <- rstrip_mid by (split; [reflexivity | discriminate]).
    f_equal. now rewrite !str_app_assoc.
  - intros Hnil. rewrite Hnil in Hds. injection Hds as <-.
    exists (h ++ nl2 ++ plot_section plot ++ stars_section ss),
           (rstrip (nl2 ++ g)).
    rewrite <- Hm.
    change (directors_section "Unknown") with (directors_unknown ++ nl2).
    rewrite (str_app_assoc h). f_equal.
    rewrite <- rstrip_mid by (split; [reflexivity | discriminate]).
    f_equal. now rewrite !str_app_assoc.
Qed.

(** C9, as stated, fails: with no cast entry and no director the two lines
    are still there, reading [Unknown]. *)
Lemma C9_counterexample :
  exists r,
    get_by_id (dune_world no_videos) "movie" 438631 None None = Populated r
    /\ md_stars (mongo r) = []
    /\ md_directors (mongo r) = []
    /\ message r
       = "<b>Dune (2021)</b> is now available!" ++ nl2
         ++ "Paul Atreides leads nomadic tribes." ++ nl2
         ++ stars_unknown ++ nl2 ++ directors_unknown ++ nl2 ++ "#Adventure".
Proof. eexists. repeat split; reflexivity. Qed.

(** C9 (amended): when neither [season > 1] nor [episode > 1], the message
    is the header, a blank line, then the plot section if the plot is not
    empty, the Stars line if [stars_str] is not empty, the Directors line if
    [directors_str] is not empty, each followed by a blank line, then the
    genre tags, the whole right-trimmed.  [get_by_id] passes ["Unknown"] for
    an empty cast list and for an empty director list, so that in its
    messages those lines are present and read [Unknown]. *)
Theorem C9_full_body (tmdb_type : string) (season episode : option Z)
    (directors_str stars_str : string) (data plot : pyval) (h g : string) :
  ~ gt_one season -> ~ gt_one episode ->
  header_of tmdb_type season episode data = Ok h ->
  genres_str_of data = Ok g ->
  format_tmdb_info tmdb_type season episode directors_str stars_str data plot
  = Ok (rstrip (h ++ nl2 ++ plot_section plot ++ stars_section stars_str
                  ++ directors_section directors_str ++ g))
  /\ (plot_section plot = "" <-> py_truthy plot = false)
  /\ (stars_section stars_str = "" <-> stars_str = "")
  /\ (directors_section directors_str = "" <-> directors_str = "")
  /\ names_str [] = Ok "Unknown"
  /\ forall w tmdb_id r,
       get_by_id w tmdb_type tmdb_id season episode = Populated r ->
       (md_stars (mongo r) = [] ->
        exists pre post, message r = pre ++ stars_unknown ++ post)
       /\ (md_directors (mongo r) = [] ->
           exists pre post, message r = pre ++ directors_unknown ++ post).
Proof.
  intros Hs He Hh Hg.
  pose proof (not_later_above_one _ _ Hs He) as Hc.
  destruct (header_of_solid _ _ _ _ _ Hh) as [_ [Hsolid _]].
  split; [|split; [|split; [|split; [|split]]]].
  - rewrite (format_full _ _ _ directors_str stars_str _ plot h g Hc Hh Hg).
    now rewrite (rstrip_solid_app h _ Hsolid).
  - unfold plot_section. destruct (py_truthy plot).
    + split; [|discriminate]. destruct (py_str plot); discriminate.
    + split; reflexivity.
  - unfold stars_section. destruct stars_str; cbn; split; congruence.
  - unfold directors_section. destruct directors_str; cbn; split; congruence.
  - reflexivity.
  - intros w tmdb_id r. now apply unknown_lines_appear.
Qed.

Lemma not_gt_one_None : ~ gt_one None.
Proof. intros (k & [=] & _). Qed.

Lemma C9_witness :
  header_of "movie" None None dune_detail
  = Ok "<b>Dune (2021)</b> is now available!"
  /\ genres_str_of dune_detail = Ok "#Adventure"
  /\ format_tmdb_info "movie" None None "Denis" "" dune_detail (PStr "")
     = Ok ("<b>Dune (2021)</b> is now available!" ++ nl2
           ++ "<b>Directors:</b> Denis" ++ nl2 ++ "#Adventure").
Proof.
  split; [reflexivity|]. split; [reflexivity|].
  exact (proj1 (C9_full_body "movie" None None "Denis" "" dune_detail (PStr "")
                  _ _ not_gt_one_None not_gt_one_None eq_refl eq_refl)).
Defined.

(** ** Plot resolution *)

Lemma split_no_sep (sep s cur : string) :
  is_substring sep s = false -> split_go sep O cur s = [cur ++ s].
Proof.
  revert cur. induction s as [|c s IH]; intros cur H.
  - cbn. now rewrite str_app_nil_r.
  - cbn [is_substring] in H. apply orb_false_elim in H as [Hp Hs].
    cbn [split_go]. rewrite Hp, (IH _ Hs), str_app_assoc. reflexivity.
Qed.

Lemma prefix_nil (s : string) : prefix "" s = true.
Proof. now destruct s. Qed.

Lemma prefix_sep2_cons (c : ascii) (a b : string) :
  prefix sep2 (String c (a ++ sep2 ++ b)) = prefix sep2 (String c (a ++ ":")).
Proof.
  unfold sep2. cbn [prefix]. destruct (ascii_dec ":" c); [|reflexivity].
  destruct a as [|x a]; cbn [append prefix]; [reflexivity|].
  destruct (ascii_dec ":" x); [|reflexivity].
  now rewrite !prefix_nil.
Qed.

(** The first piece of [split('::')] is the text before the first
    occurrence of the delimiter. *)
Lemma split_sep2_head (a b cur : string) :
  is_substring sep2 (a ++ ":") = false ->
  hd "" (split_go sep2 O cur (a ++ sep2 ++ b)) = cur ++ a.
Proof.
  revert cur. induction a as [|c a IH]; intros cur H.
  - rewrite str_app_nil_r. destruct b; reflexivity.
  - change (String c a ++ ":") with (String c (a ++ ":")) in H.
    cbn [is_substring] in H. apply orb_false_elim in H as [Hp Hs].
    change (String c a ++ sep2 ++ b) with (String c (a ++ sep2 ++ b)).
    cbn [split_go]. rewrite prefix_sep2_cons, Hp, (IH _ Hs), str_app_assoc.
    reflexivity.
Qed.

Lemma get_imdb_plot_found (w : world) (imdb_id : string)
    (movie plots : pyval) (p : string) :
  ia_get_movie w (py_replace "tt" "" imdb_id) = Ok movie ->
  py_get movie "plot" (PList [PStr ""]) = Ok plots ->
  py_index0 plots = Ok (PStr p) ->
  get_imdb_plot w (PStr imdb_id) = py_strip (hd "" (py_split sep2 p)).
Proof.
  intros Hm Hp Hi. unfold get_imdb_plot. cbn [py_replace_method bind].
  rewrite Hm. cbn [bind]. rewrite Hp. cbn [bind]. rewrite Hi. reflexivity.
Qed.

Lemma get_imdb_plot_raise (w : world) (imdb_id : string) (e : exn) :
  ia_get_movie w (py_replace "tt" "" imdb_id) = Raise e ->
  get_imdb_plot w (PStr imdb_id) = "".
Proof.
  intros Hm. unfold get_imdb_plot. cbn [py_replace_method bind].
  now rewrite Hm.
Qed.

Lemma resolve_plot_fallback (w : world) (data imdb_id : pyval) :
  get_imdb_plot w imdb_id = "" ->
  resolve_plot w data imdb_id = py_get data "overview" (PStr "").
Proof.
  intros H. unfold resolve_plot. rewrite H. now destruct (py_truthy imdb_id).
Qed.

Lemma resolve_plot_found (w : world) (data imdb_id : pyval) :
  py_truthy imdb_id = true ->
  get_imdb_plot w imdb_id <> "" ->
  resolve_plot w data imdb_id = Ok (PStr (get_imdb_plot w imdb_id)).
Proof.
  intros Ht Hne. unfold resolve_plot. rewrite Ht.
  apply String.eqb_neq in Hne. now rewrite Hne.
Qed.

Lemma resolve_plot_total (w : world) (d : list (string * pyval))
    (imdb_id : pyval) :
  exists v, resolve_plot w (PDict d) imdb_id = Ok v.
Proof.
  unfold resolve_plot.
  destruct (negb _); cbn [py_get]; eexists; reflexivity.
Qed.

Lemma format_ok_any_plot (tmdb_type : string) (season episode : option Z)
    (directors_str stars_str : string) (data plot plot' : pyval) :
  is_ok (format_tmdb_info tmdb_type season episode directors_str stars_str
                          data plot)
  = is_ok (format_tmdb_info tmdb_type season episode directors_str stars_str
                            data plot').
Proof.
  unfold format_tmdb_info.
  destruct (header_of _ _ _ _); [|reflexivity]. cbn [bind].
  destruct (genres_str_of _); [|reflexivity]. cbn [bind].
  now destruct (above_one season || above_one episode).
Qed.

Lemma get_poster_url_dict (data p : pyval) :
  get_poster_url data = Ok p -> exists d, data = PDict d.
Proof. destruct data; try discriminate. now eexists. Qed.

(** Whatever the IMDb client does, the aggregation is populated or not
    alike. *)
Lemma plot_source_never_fatal (w : world) (ia : string -> exc pyval)
    (tmdb_type : string) (tmdb_id : Z) (season episode : option Z) :
  is_populated (get_by_id (with_ia w ia) tmdb_type tmdb_id season episode)
  = is_populated (get_by_id w tmdb_type tmdb_id season episode).
Proof.
  unfold get_by_id, get_by_id_body.
  change (api_url (with_ia w ia)) with (api_url w).
  change (images_url (with_ia w ia)) with (images_url w).
  change (credits_url (with_ia w ia)) with (credits_url w).
  change (session_get (with_ia w ia)) with (session_get w).
  change (get_trailer_url (with_ia w ia)) with (get_trailer_url w).
  change (resolve_imdb_id (with_ia w ia)) with (resolve_imdb_id w).
  do 6 (bind_goal; [|reflexivity]).
  match goal with
  | |- context [get_poster_url ?data] =>
      destruct (get_poster_url data) as [poster|] eqn:Ep; [|reflexivity];
      destruct (get_poster_url_dict _ _ Ep) as [d ->]
  end.
  cbn [bind].
  do 10 (bind_goal; [|reflexivity]).
  match goal with
  | |- context [resolve_plot w (PDict d) ?i] =>
      destruct (resolve_plot_total (with_ia w ia) d i) as [p1 ->];
      destruct (resolve_plot_total w d i) as [p2 ->]
  end.
  cbn [bind].
  match goal with
  | |- context [format_tmdb_info ?t ?s ?e ?ds ?ss ?da p1] =>
      pose proof (format_ok_any_plot t s e ds ss da p1 p2) as Hf
  end.
  destruct (format_tmdb_info _ _ _ _ _ _ p1), (format_tmdb_info _ _ _ _ _ _ p2);
    try discriminate Hf; [|reflexivity].
  cbn [bind py_get].
  destruct (py_float _); reflexivity.
Qed.

(** C8: [get_imdb_plot] returns the first IMDb plot cut at the first
    ["::"] and stripped; when the IMDb lookup raises it returns the empty
    string, and whenever it returns the empty string the plot is the
    overview of the detail payload; plot resolution returns on every dict
    payload, and nothing the IMDb client does changes whether the
    aggregation is populated. *)
Theorem C8_plot_resolution (w : world) (imdb_id : string)
    (movie plots : pyval) (a b : string) :
  ia_get_movie w (py_replace "tt" "" imdb_id) = Ok movie ->
  py_get movie "plot" (PList [PStr ""]) = Ok plots ->
  py_index0 plots = Ok (PStr (a ++ "::" ++ b)) ->
  is_substring "::" (a ++ ":") = false ->
  get_imdb_plot w (PStr imdb_id) = py_strip a
  /\ (forall w' i movie' plots' p,
         ia_get_movie w' (py_replace "tt" "" i) = Ok movie' ->
         py_get movie' "plot" (PList [PStr ""]) = Ok plots' ->
         py_index0 plots' = Ok (PStr p) ->
         is_substring "::" p = false ->
         get_imdb_plot w' (PStr i) = py_strip p)
  /\ (forall w' i e,
         ia_get_movie w' (py_replace "tt" "" i) = Raise e ->
         get_imdb_plot w' (PStr i) = "")
  /\ (forall w' data i,
         get_imdb_plot w' i = "" ->
         resolve_plot w' data i = py_get data "overview" (PStr ""))
  /\ (forall w' data i,
         py_truthy i = true ->
         get_imdb_plot w' i <> "" ->
         resolve_plot w' data i = Ok (PStr (get_imdb_plot w' i)))
  /\ (forall w' d i, exists v, resolve_plot w' (PDict d) i = Ok v)
  /\ (forall w' ia tmdb_type tmdb_id season episode,
         is_populated (get_by_id (with_ia w' ia) tmdb_type tmdb_id
                                 season episode)
         = is_populated (get_by_id w' tmdb_type tmdb_id season episode)).
Proof.
  intros Hm Hp Hi Hfirst. repeat split.
  - rewrite (get_imdb_plot_found _ _ _ _ _ Hm Hp Hi).
    exact (f_equal py_strip (split_sep2_head a b "" Hfirst)).
  - intros w' i movie' plots' p Hm' Hp' Hi' Hno.
    rewrite (get_imdb_plot_found _ _ _ _ _ Hm' Hp' Hi').
    exact (f_equal (fun l => py_strip (hd "" l)) (split_no_sep sep2 p "" Hno)).
  - intros w' i e. apply get_imdb_plot_raise.
  - intros w' data i. apply resolve_plot_fallback.
  - intros w' data i. apply resolve_plot_found.
  - intros w' d i. apply resolve_plot_total.
  - intros w' ia ty id s e. apply plot_source_never_fatal.
Qed.

Lemma C8_witness :
  ia_get_movie (with_ia (dune_world no_videos) dune_ia)
               (py_replace "tt" "" "tt1160419") = Ok dune_movie
  /\ py_index0 (PList [PStr "A noble family becomes embroiled in a war. ::Anonymous"])
     = Ok (PStr ("A noble family becomes embroiled in a war. "
                 ++ "::" ++ "Anonymous"))
  /\ is_substring "::" ("A noble family becomes embroiled in a war. " ++ ":")
     = false
  /\ get_imdb_plot (with_ia (dune_world no_videos) dune_ia) (PStr "tt1160419")
     = "A noble family becomes embroiled in a war.".
Proof.
  repeat (split; [reflexivity|]).
  exact (proj1 (C8_plot_resolution
                  (with_ia (dune_world no_videos) dune_ia) "tt1160419"
                  dune_movie _
                  "A noble family becomes embroiled in a war. " "Anonymous"
                  eq_refl eq_refl eq_refl eq_refl)).
Defined.

(** ** Status codes *)

Lemma get_imdb_plot_ext (w w' : world) (imdb_id : pyval) :
  (forall i, ia_get_movie w i = ia_get_movie w' i) ->
  get_imdb_plot w imdb_id = get_imdb_plot w' imdb_id.
Proof.
  intros H. unfold get_imdb_plot.
  destruct (py_replace_method imdb_id "tt" ""); [|reflexivity].
  cbn [bind]. now rewrite H.
Qed.

Lemma session_json_ext (w w' : world) (u : string) {A : Type}
    (k : pyval -> exc A) :
  same_but_status (session_get w u) (session_get w' u) ->
  (resp <- session_get w u ;; data <- json resp ;; k data)
  = (resp <- session_get w' u ;; data <- json resp ;; k data).
Proof.
  unfold same_but_status.
  destruct (session_get w u), (session_get w' u); cbn [bind]; try tauto.
  - now intros ->.
  - now intros ->.
Qed.

Lemma get_tv_imdb_id_ext (w w' : world) (tv_id : pyval) :
  TMDB_API_KEY w = TMDB_API_KEY w' ->
  (forall u, same_but_status (session_get w u) (session_get w' u)) ->
  get_tv_imdb_id w tv_id = get_tv_imdb_id w' tv_id.
Proof.
  intros Hk Hs. unfold get_tv_imdb_id, external_ids_url. rewrite <- Hk.
  apply session_json_ext, Hs.
Qed.

Lemma get_trailer_url_ext (w w' : world) (tmdb_type : string) (tmdb_id : Z) :
  TMDB_API_KEY w = TMDB_API_KEY w' ->
  session_get w (video_url w tmdb_type tmdb_id)
  = session_get w' (video_url w tmdb_type tmdb_id) ->
  get_trailer_url w tmdb_type tmdb_id = get_trailer_url w' tmdb_type tmdb_id.
Proof.
  intros Hk Hv. unfold get_trailer_url.
  assert (video_url w' tmdb_type tmdb_id = video_url w tmdb_type tmdb_id) as ->
    by (unfold video_url; now rewrite Hk).
  now rewrite Hv.
Qed.

Lemma resolve_imdb_id_ext (w w' : world) (tmdb_type : string) (data : pyval) :
  TMDB_API_KEY w = TMDB_API_KEY w' ->
  (forall u, same_but_status (session_get w u) (session_get w' u)) ->
  resolve_imdb_id w tmdb_type data = resolve_imdb_id w' tmdb_type data.
Proof.
  intros Hk Hs. unfold resolve_imdb_id.
  destruct (py_get data "imdb_id" PNone); [|reflexivity]. cbn [bind].
  destruct (_ && _)%bool; [|reflexivity].
  destruct (py_get data "id" PNone); [|reflexivity]. cbn [bind].
  now apply get_tv_imdb_id_ext.
Qed.

Lemma resolve_plot_ext (w w' : world) (data imdb_id : pyval) :
  (forall i, ia_get_movie w i = ia_get_movie w' i) ->
  resolve_plot w data imdb_id = resolve_plot w' data imdb_id.
Proof.
  intros H. unfold resolve_plot. now rewrite (get_imdb_plot_ext w w' _ H).
Qed.

Ltac same_response H :=
  unfold same_but_status in H;
  match type of H with
  | match ?a with _ => _ end =>
      destruct a; 
      match type of H with
      | match ?b with _ => _ end => destruct b
      end;
      try contradiction; cbn [bind]; [|now subst]
  end.

(** The status codes of the responses, the videos endpoint apart, change
    nothing in what [get_by_id] returns. *)
Lemma get_by_id_ignores_status (w w' : world) (tmdb_type : string)
    (tmdb_id : Z) (season episode : option Z) :
  status_variant w w' tmdb_type tmdb_id ->
  get_by_id w tmdb_type tmdb_id season episode
  = get_by_id w' tmdb_type tmdb_id season episode.
Proof.
  intros (Hk & Hia & Hs & Hv). unfold get_by_id. f_equal.
  unfold get_by_id_body.
  rewrite <- (get_trailer_url_ext w w' tmdb_type tmdb_id Hk Hv).
  assert (api_url w' tmdb_type tmdb_id = api_url w tmdb_type tmdb_id) as ->
    by (unfold api_url; now rewrite Hk).
  assert (images_url w' tmdb_type tmdb_id = images_url w tmdb_type tmdb_id) as ->
    by (unfold images_url; now rewrite Hk).
  assert (credits_url w' tmdb_type tmdb_id = credits_url w tmdb_type tmdb_id) as ->
    by (unfold credits_url; now rewrite Hk).
  pose proof (Hs (api_url w tmdb_type tmdb_id)) as H1.
  pose proof (Hs (images_url w tmdb_type tmdb_id)) as H2.
  pose proof (Hs (credits_url w tmdb_type tmdb_id)) as H3.
  same_response H1. same_response H2. same_response H3.
  rewrite H1, H2, H3.
  destruct (json a0) as [data|]; [|reflexivity]. cbn [bind].
  do 2 (bind_goal; [|reflexivity]).
  rewrite <- (resolve_imdb_id_ext w w' tmdb_type data Hk Hs).
  repeat first [ rewrite <- (resolve_plot_ext w w') by exact Hia
               | bind_goal; [|reflexivity] ].
  reflexivity.
Qed.

(** C10, as stated, fails: a body that parses as JSON but is not an object
    makes extraction raise, under an error status and under 200 alike. *)
Lemma C10_counterexample :
  get_by_id (movie_world (served 404 (PList [])) (served 200 (PDict []))
                         (served 200 (PDict [])) no_videos)
            "movie" 438631 None None
  = ErrorResult AttributeError
  /\ get_by_id (movie_world (served 200 (PList [])) (served 200 (PDict []))
                            (served 200 (PDict [])) no_videos)
               "movie" 438631 None None
     = ErrorResult AttributeError.
Proof. split; reflexivity. Qed.

(** C10 (amended): the status codes of the detail, images and credits
    responses are never inspected: changing them changes nothing in the
    result, and error-status responses whose body is the error object of
    TMDB go through extraction to a populated result; the trailer lookup
    does check the status, and resolves to absent unless it is 200.  (A
    body that parses as JSON but is not an object still ends in the error
    result.) *)
Theorem C10_status_not_inspected (w w' : world) (tmdb_type : string)
    (tmdb_id : Z) (season episode : option Z) :
  status_variant w w' tmdb_type tmdb_id ->
  get_by_id w tmdb_type tmdb_id season episode
  = get_by_id w' tmdb_type tmdb_id season episode
  /\ (forall resp,
         session_get w (video_url w tmdb_type tmdb_id) = Ok resp ->
         status resp <> 200 ->
         get_trailer_url w tmdb_type tmdb_id = Ok PNone)
  /\ (forall s1 s2 s3,
         exists r,
           get_by_id (error_world s1 s2 s3) "movie" 438631 None None
           = Populated r
           /\ message r
              = "<b> ()</b> is now available!" ++ nl2 ++ stars_unknown
                ++ nl2 ++ directors_unknown).
Proof.
  intros Hv. split; [|split].
  - now apply get_by_id_ignores_status.
  - apply get_trailer_url_not_200.
  - intros s1 s2 s3. eexists. split; reflexivity.
Qed.

Lemma dune_status_variant :
  status_variant (dune_world no_videos)
                 (movie_world (served 404 dune_detail) (served 500 (PDict []))
                              (served 503 (PDict [("id", PInt 438631)]))
                              no_videos)
                 "movie" 438631.
Proof.
  split; [reflexivity|]. split; [reflexivity|]. split; [|reflexivity].
  intros u. cbn [session_get dune_world movie_world route].
  repeat (destruct (String.eqb u _); [reflexivity|]).
  reflexivity.
Qed.

Lemma C10_witness :
  status_variant (dune_world no_videos)
                 (movie_world (served 404 dune_detail) (served 500 (PDict []))
                              (served 503 (PDict [("id", PInt 438631)]))
                              no_videos)
                 "movie" 438631
  /\ get_by_id (dune_world no_videos) "movie" 438631 None None
     = get_by_id (movie_world (served 404 dune_detail) (served 500 (PDict []))
                              (served 503 (PDict [("id", PInt 438631)]))
                              no_videos)
                 "movie" 438631 None None.
Proof.
  split; [exact dune_status_variant|].
  exact (proj1 (C10_status_not_inspected _ _ "movie" 438631 None None
                  dune_status_variant)).
Defined.

(** ** Name-based search *)

Lemma py_getitem_of_get (data : pyval) (k : string) (v : pyval) :
  py_get data k PNone = Ok v -> v <> PNone -> py_getitem data k = Ok v.
Proof.
  destruct data; try discriminate. cbn [py_get py_getitem].
  destruct (dict_get k d); [tauto|]. intros [= <-]. congruence.
Qed.

Lemma filterM_none {A : Type} (p : A -> exc bool) (l : list A) :
  Forall (fun x => p x = Ok false) l -> filterM p l = Ok [].
Proof.
  induction 1 as [|x l Hx _ IH]; [reflexivity|].
  cbn [filterM]. now rewrite Hx, IH.
Qed.

Lemma filterM_skip {A : Type} (p : A -> exc bool) (pre l : list A) :
  Forall (fun x => p x = Ok false) pre ->
  filterM p (pre ++ l)%list = filterM p l.
Proof.
  induction 1 as [|x pre Hx _ IH]; [reflexivity|].
  cbn [filterM app]. rewrite Hx, IH. cbn [bind].
  now destruct (filterM p l).
Qed.

Lemma filterM_total {A : Type} (p : A -> exc bool) (l : list A) :
  Forall (fun x => exists b, p x = Ok b) l -> exists kept, filterM p l = Ok kept.
Proof.
  induction 1 as [|x l [b Hx] _ [kept IH]]; [now exists []|].
  cbn [filterM]. rewrite Hx, IH. now eexists.
Qed.

Section Search.
Variables (w : world) (url field media_type : string) (year : pyval).
Variables (resp : response) (data : pyval) (items : list pyval).
Hypothesis Hget : session_get w url = Ok resp.
Hypothesis Hjson : json resp = Ok data.
Hypothesis Hresults : py_get data "results" PNone = Ok (PList items).
Hypothesis Hyear : py_truthy year = true.

Lemma search_body_filtered :
  search_body w url field media_type year
  = (kept <- filterM (year_matches field year) items ;;
     match kept with
     | [] => Ok PNone
     | result :: _ =>
         id <- py_getitem result "id" ;;
         Ok (PDict [("id", id); ("media_type", PStr media_type)])
     end).
Proof.
  unfold search_body. rewrite Hget. cbn [bind]. rewrite Hjson. cbn [bind].
  rewrite Hresults. cbn [bind]. destruct items as [|x l] eqn:Ei.
  - reflexivity.
  - cbn [py_truthy].
    rewrite (py_getitem_of_get _ _ _ Hresults) by discriminate.
    cbn [bind]. rewrite Hyear. cbn [py_iter bind].
    destruct (filterM _ _) as [[|r kept]|]; reflexivity.
Qed.

Lemma search_body_no_match :
  Forall (fun r => year_matches field year r = Ok false) items ->
  search_body w url field media_type year = Ok PNone.
Proof.
  intros H. rewrite search_body_filtered. now rewrite (filterM_none _ _ H).
Qed.

Lemma search_body_first_match (pre post : list pyval) (r id : pyval) :
  items = (pre ++ r :: post)%list ->
  Forall (fun x => year_matches field year x = Ok false) pre ->
  year_matches field year r = Ok true ->
  Forall (fun x => exists b, year_matches field year x = Ok b) post ->
  py_getitem r "id" = Ok id ->
  search_body w url field media_type year
  = Ok (PDict [("id", id); ("media_type", PStr media_type)]).
Proof.
  intros Hi Hpre Hr Hpost Hid. rewrite search_body_filtered, Hi.
  rewrite (filterM_skip _ _ _ Hpre). cbn [filterM]. rewrite Hr. cbn [bind].
  destruct (filterM_total _ _ Hpost) as [kept ->]. cbn [bind].
  now rewrite Hid.
Qed.
End Search.

(** C2, as stated, fails: when no result is of the year asked for, the
    search returns [None] although the unfiltered list has a first
    result. *)
Lemma C2_counterexample :
  get_movie_by_name search_world "Inception" PNone
  = PDict [("id", PInt 27205); ("media_type", PStr "movie")]
  /\ get_movie_by_name search_world "Inception" (PInt 1999) = PNone
  /\ get_tv_by_name search_world "Inception" PNone
     = PDict [("id", PInt 27205); ("media_type", PStr "tv")]
  /\ get_tv_by_name search_world "Inception" (PInt 1999) = PNone.
Proof. repeat split; reflexivity. Qed.

(** C2 (amended): a name-based search (movie or TV) given a year returns
    the [{id, media_type}] of the first result whose date field starts with
    that year, and the absent result when no result's date field does:
    there is no fall back to the unfiltered list. *)
Theorem C2_search_year_filter (w : world) (name : string) (year : pyval) :
  py_truthy year = true ->
  (forall resp data items,
      session_get w (movie_search_url w name) = Ok resp ->
      json resp = Ok data ->
      py_get data "results" PNone = Ok (PList items) ->
      (Forall (fun r => year_matches "release_date" year r = Ok false) items ->
       get_movie_by_name w name year = PNone)
      /\ (forall pre r post id,
             items = (pre ++ r :: post)%list ->
             Forall (fun x => year_matches "release_date" year x = Ok false) pre ->
             year_matches "release_date" year r = Ok true ->
             Forall (fun x => exists b, year_matches "release_date" year x = Ok b)
                    post ->
             py_getitem r "id" = Ok id ->
             get_movie_by_name w name year
             = PDict [("id", id); ("media_type", PStr "movie")]))
  /\ (forall resp data items,
         session_get w (tv_search_url w name) = Ok resp ->
         json resp = Ok data ->
         py_get data "results" PNone = Ok (PList items) ->
         (Forall (fun r => year_matches "first_air_date" year r = Ok false) items ->
          get_tv_by_name w name year = PNone)
         /\ (forall pre r post id,
                items = (pre ++ r :: post)%list ->
                Forall (fun x => year_matches "first_air_date" year x = Ok false)
                       pre ->
                year_matches "first_air_date" year r = Ok true ->
                Forall (fun x => exists b,
                                   year_matches "first_air_date" year x = Ok b)
                       post ->
                py_getitem r "id" = Ok id ->
                get_tv_by_name w name year
                = PDict [("id", id); ("media_type", PStr "tv")])).
Proof.
  intros Hyear. split.
  - intros resp data items Hget Hjson Hres. split.
    + intros Hnone. unfold get_movie_by_name.
      now rewrite (search_body_no_match w _ _ _ year resp data items).
    + intros pre r post id Hi Hpre Hr Hpost Hid. unfold get_movie_by_name.
      now rewrite (search_body_first_match w _ _ _ year resp data items
                     Hget Hjson Hres Hyear pre post r id).
  - intros resp data items Hget Hjson Hres. split.
    + intros Hnone. unfold get_tv_by_name.
      now rewrite (search_body_no_match w _ _ _ year resp data items).
    + intros pre r post id Hi Hpre Hr Hpost Hid. unfold get_tv_by_name.
      now rewrite (search_body_first_match w _ _ _ year resp data items
                     Hget Hjson Hres Hyear pre post r id).
Qed.

Lemma C2_witness :
  py_truthy (PInt 1999) = true
  /\ get_movie_by_name search_world "Inception" (PInt 1999) = PNone
  /\ get_tv_by_name search_world "Inception" (PInt 2010)
     = PDict [("id", PInt 27205); ("media_type", PStr "tv")].
Proof.
  split; [reflexivity|]. split.
  - refine (proj1 (proj1 (C2_search_year_filter search_world "Inception"
                            (PInt 1999) eq_refl)
                     _ inception_results _ eq_refl eq_refl eq_refl) _).
    repeat constructor.
  - refine (proj2 (proj2 (C2_search_year_filter search_world "Inception"
                            (PInt 2010) eq_refl)
                     _ inception_results _ eq_refl eq_refl eq_refl)
              [] _ [] (PInt 27205) eq_refl _ eq_refl _ eq_refl);
      constructor.
Defined.

(* ================================================================== *)
(** * Further properties *)

(** ** [truncate_overview] *)

Lemma str_take_length (n : nat) (s : string) :
  String.length (str_take n s) = Nat.min n (String.length s).
Proof.
  revert s. induction n as [|n IH]; intros [|c s]; simpl; auto.
Qed.

Lemma str_take_all (n : nat) (s : string) :
  (String.length s <= n)%nat -> str_take n s = s.
Proof.
  revert s. induction n as [|n IH]; intros [|c s]; simpl; intros H;
    try reflexivity; try lia.
  rewrite IH; [reflexivity | lia].
Qed.

Lemma str_take_app (n : nat) (s t : string) :
  (n <= String.length s)%nat -> str_take n (s ++ t) = str_take n s.
Proof.
  revert s. induction n as [|n IH]; intros [|c s]; simpl; intros H;
    try reflexivity; try lia.
  rewrite IH; [reflexivity | lia].
Qed.

Lemma str_length_app (s t : string) :
  String.length (s ++ t) = (String.length s + String.length t)%nat.
Proof. induction s as [|c s IH]; simpl; [reflexivity | now rewrite IH]. Qed.

(** X1: on a string, [truncate_overview] returns a string of at most 603
    characters: the text itself when it has at most 600 characters, and
    otherwise its first 600 characters followed by three dots; truncating
    the result again changes nothing. *)
Theorem truncate_overview_bounded (s : string) :
  exists t,
    truncate_overview (PStr s) = Ok (PStr t)
    /\ (String.length t <= 603)%nat
    /\ ((String.length s <= 600)%nat -> t = s)
    /\ ((600 < String.length s)%nat -> t = str_take 600 s ++ "...")
    /\ truncate_overview (PStr t) = Ok (PStr t).
Proof.
  unfold truncate_overview, MAX_OVERVIEW_LENGTH. cbn [py_len bind].
  destruct (Nat.ltb 600 (String.length s)) eqn:E.
  - apply Nat.ltb_lt in E. cbn [py_slice bind py_add_str].
    exists (str_take 600 s ++ "...").
    assert (String.length (str_take 600 s ++ "...") = 603%nat) as Hlen.
    { rewrite str_length_app, str_take_length. cbn [String.length]. lia. }
    split; [reflexivity|]. split; [lia|]. split; [lia|].
    split; [reflexivity|].
    rewrite Hlen. cbn [Nat.ltb Nat.leb py_slice bind py_add_str].
    replace (Nat.ltb 600 603) with true by reflexivity.
    cbn [py_slice bind py_add_str].
    rewrite str_take_app by (rewrite str_take_length; lia).
    rewrite (str_take_all 600 (str_take 600 s))
      by (rewrite str_take_length; lia).
    reflexivity.
  - apply Nat.ltb_ge in E. exists s.
    split; [reflexivity|]. split; [lia|]. split; [reflexivity|].
    split; [lia|].
    apply Nat.ltb_ge in E. now rewrite E.
Qed.

(** ** [clean_genre_name] *)






(** ** [extract_stars] and [extract_directors] *)

Lemma mapM_length {A B : Type} (f : A -> exc B) (l : list A) (l' : list B) :
  mapM f l = Ok l' -> List.length l' = List.length l.
Proof.
  revert l'. induction l as [|x l IH]; intros l'; cbn [mapM].
  - now intros [= <-].
  - destruct (f x); [|discriminate]. cbn [bind].
    destruct (mapM f l) as [ys|]; [|discriminate]. cbn [bind].
    intros [= <-]. simpl. now rewrite (IH ys).
Qed.

Lemma chars_length (s : string) : List.length (chars s) = String.length s.
Proof. induction s as [|c s IH]; simpl; [reflexivity | now rewrite IH]. Qed.

Lemma extract_stars_length (credits : pyval) (limit : nat)
    (stars : list pyval) :
  extract_stars credits limit = Ok stars ->
  (List.length stars <= limit)%nat.
Proof.
  unfold extract_stars. intros H. bind_step H.
  destruct (py_truthy a); cbn [negb] in H.
  2:{ injection H as <-. simpl. lia. }
  bind_step H. bind_step H. apply mapM_length in H. rewrite H.
  destruct a; try discriminate; cbn [py_slice] in E0; injection E0 as <-;
    cbn [py_iter] in E1; injection E1 as <-.
  - rewrite length_map, chars_length, str_take_length. lia.
  - rewrite length_firstn. lia.
Qed.

Lemma person_person_of (d : list (string * pyval)) :
  person (PDict d) = Ok (person_of d).
Proof.
  unfold person, person_of, field. cbn [py_get bind]. reflexivity.
Qed.

Lemma mapM_person_dicts (ds : list (list (string * pyval))) :
  mapM person (map PDict ds) = Ok (map person_of ds).
Proof.
  rewrite mapM_map. apply mapM_ok. apply person_person_of.
Qed.

Lemma firstn_map {A B : Type} (f : A -> B) (n : nat) (l : list A) :
  firstn n (map f l) = map f (firstn n l).
Proof.
  revert l. induction n as [|n IH]; intros [|x l]; simpl; try reflexivity.
  now rewrite IH.
Qed.

Lemma extract_stars_dicts (c : list (string * pyval))
    (ds : list (list (string * pyval))) (limit : nat) :
  dict_get "cast" c = Some (PList (map PDict ds)) ->
  extract_stars (PDict c) limit = Ok (map person_of (firstn limit ds)).
Proof.
  intros Hc. unfold extract_stars. cbn [py_get bind]. rewrite Hc.
  destruct ds as [|d ds]; [now destruct limit|].
  cbn [map py_truthy negb py_slice bind py_iter].
  change (PDict d :: map PDict ds) with (map PDict (d :: ds)).
  rewrite firstn_map. apply mapM_person_dicts.
Qed.

(** X3: when the cast of the credits is a list of dicts, [extract_stars]
    returns the person dicts of its first [limit] members, in their order:
    [min(limit, len(cast))] entries, none dropped for a missing name or
    profile path. *)
Theorem extract_stars_first_members (c : list (string * pyval))
    (ds : list (list (string * pyval))) (limit : nat) :
  dict_get "cast" c = Some (PList (map PDict ds)) ->
  extract_stars (PDict c) limit = Ok (map person_of (firstn limit ds))
  /\ List.length (map person_of (firstn limit ds))
     = Nat.min limit (List.length ds).
Proof.
  intros Hc. split.
  - now apply extract_stars_dicts.
  - now rewrite length_map, length_firstn.
Qed.

Lemma extract_stars_first_members_witness :
  dict_get "cast" [("cast", PList (map PDict seven_cast_items))]
  = Some (PList (map PDict seven_cast_items))
  /\ extract_stars seven_cast 5
     = Ok (map person_of (firstn 5 seven_cast_items)).
Proof.
  split; [reflexivity|].
  exact (proj1 (extract_stars_first_members
                  [("cast", PList (map PDict seven_cast_items))]
                  seven_cast_items 5 eq_refl)).
Defined.

Lemma crew_directors_dicts (ds : list (list (string * pyval))) :
  crew_directors (map PDict ds) = Ok (map person_of (filter is_director ds)).
Proof.
  induction ds as [|d ds IH]; [reflexivity|].
  cbn [map crew_directors py_get bind filter].
  change (match dict_get "job" d with Some v => v | None => PNone end)
    with (field "job" d).
  fold (is_director d). rewrite IH.
  destruct (is_director d); [|reflexivity].
  now rewrite person_person_of.
Qed.

(** X4: for a movie, [extract_directors] returns the person dicts of the
    crew members whose job is ['Director'], in crew order and with
    repetitions kept, and never reads the detail payload; for a series it
    returns the person dicts of ['created_by'] and never reads the
    credits; for any other type it returns the empty list and reads
    neither payload. *)
Theorem extract_directors_by_type :
  (forall c ds data,
      dict_get "crew" c = Some (PList (map PDict ds)) ->
      extract_directors "movie" data (PDict c)
      = Ok (map person_of (filter is_director ds)))
  /\ (forall d ds credits,
         dict_get "created_by" d = Some (PList (map PDict ds)) ->
         extract_directors "tv" (PDict d) credits = Ok (map person_of ds))
  /\ (forall other data credits,
         other <> "movie" -> other <> "tv" ->
         extract_directors other data credits = Ok []).
Proof.
  split; [|split].
  - intros c ds data Hget.
    unfold extract_directors. cbn [String.eqb Ascii.eqb Bool.eqb py_get bind].
    rewrite Hget. cbn [py_iter bind]. apply crew_directors_dicts.
  - intros d ds credits Hget.
    unfold extract_directors. cbn [String.eqb Ascii.eqb Bool.eqb py_get bind].
    rewrite Hget. cbn [py_iter bind]. apply mapM_person_dicts.
  - intros other data credits Hm Ht. unfold extract_directors.
    apply String.eqb_neq in Hm, Ht. now rewrite Hm, Ht.
Qed.

Lemma extract_directors_by_type_witness :
  dict_get "crew" [("id", PInt 438631); ("crew", PList (map PDict dune_crew))]
  = Some (PList (map PDict dune_crew))
  /\ extract_directors "movie" PNone
       (PDict [("id", PInt 438631); ("crew", PList (map PDict dune_crew))])
     = Ok [PDict [("name", PStr "Denis");
                  ("profile_path",
                   PStr "https://image.tmdb.org/t/p/w500/denis.jpg")];
           PDict [("name", PStr "Denis");
                  ("profile_path",
                   PStr "https://image.tmdb.org/t/p/w500/denis.jpg")]].
Proof.
  split; [reflexivity|].
  exact (proj1 extract_directors_by_type
           [("id", PInt 438631); ("crew", PList (map PDict dune_crew))]
           dune_crew PNone eq_refl).
Defined.

(** ** [extract_language] *)

Lemma language_names (ds : list (list (string * pyval))) :
  mapM (fun lang => py_get lang "english_name" (PStr "Unknown")) (map PDict ds)
  = Ok (map language_name ds).
Proof.
  rewrite mapM_map. apply mapM_ok. intros d. reflexivity.
Qed.

Lemma as_str_all (vs : list pyval) :
  forallb is_str vs = true -> mapM as_str vs = Ok (map str_of vs).
Proof.
  induction vs as [|v vs IH]; [reflexivity|]. cbn [forallb mapM].
  intros H. apply andb_prop in H as [Hv Hvs].
  destruct v; try discriminate. cbn [as_str bind]. now rewrite (IH Hvs).
Qed.

Lemma as_str_some_not (vs : list pyval) :
  forallb is_str vs = false -> mapM as_str vs = Raise TypeError.
Proof.
  induction vs as [|v vs IH]; [discriminate|]. cbn [forallb mapM].
  destruct v; cbn [is_str as_str bind andb]; try reflexivity.
  intros H. now rewrite (IH H).
Qed.

(** X5: when the spoken languages are a list of dicts whose
    ['english_name'], where present, is a string, [extract_language]
    returns their names joined by [", "] in payload order, with
    ["Unknown"] for each entry without ['english_name'], and ["Unknown"]
    alone when the list is empty. *)
Theorem extract_language_joined (d : list (string * pyval))
    (ds : list (list (string * pyval))) :
  dict_get "spoken_languages" d = Some (PList (map PDict ds)) ->
  forallb is_str (map language_name ds) = true ->
  extract_language (PDict d)
  = Ok (match ds with
        | [] => "Unknown"
        | _ => String.concat ", " (map str_of (map language_name ds))
        end).
Proof.
  intros Hget Hstr. unfold extract_language. cbn [py_get bind]. rewrite Hget.
  destruct ds as [|x ds]; [reflexivity|].
  cbn [map py_truthy py_iter bind].
  change (PDict x :: map PDict ds) with (map PDict (x :: ds)).
  rewrite language_names. cbn [bind]. unfold py_join.
  now rewrite (as_str_all _ Hstr).
Qed.

Lemma extract_language_joined_witness :
  dict_get "spoken_languages"
           [("spoken_languages", PList (map PDict two_languages))]
  = Some (PList (map PDict two_languages))
  /\ extract_language (PDict [("spoken_languages",
                               PList (map PDict two_languages))])
     = Ok "English, Unknown, Hindi".
Proof.
  split; [reflexivity|].
  exact (extract_language_joined
           [("spoken_languages", PList (map PDict two_languages))]
           two_languages eq_refl eq_refl).
Defined.

(** X6: the ["Unknown"] default of [extract_language] covers a missing
    ['english_name'] only: when an entry of the list has an
    ['english_name'] that is not a string (a JSON null, say), the join
    raises [TypeError]. *)
Theorem extract_language_null_name (d : list (string * pyval))
    (ds : list (list (string * pyval))) :
  dict_get "spoken_languages" d = Some (PList (map PDict ds)) ->
  forallb is_str (map language_name ds) = false ->
  extract_language (PDict d) = Raise TypeError.
Proof.
  intros Hget Hstr. unfold extract_language. cbn [py_get bind]. rewrite Hget.
  destruct ds as [|x ds]; [discriminate|].
  cbn [map py_truthy py_iter bind].
  change (PDict x :: map PDict ds) with (map PDict (x :: ds)).
  rewrite language_names. cbn [bind]. unfold py_join.
  now rewrite (as_str_some_not _ Hstr).
Qed.

Lemma extract_language_null_name_witness :
  forallb is_str (map language_name null_language) = false
  /\ extract_language (PDict [("spoken_languages",
                               PList (map PDict null_language))])
     = Raise TypeError.
Proof.
  split; [reflexivity|].
  exact (extract_language_null_name
           [("spoken_languages", PList (map PDict null_language))]
           null_language eq_refl eq_refl).
Defined.

(** ** [get_backdrop_url] *)

Lemma backdrop_step (key : string) (rest : list string)
    (d : list (string * pyval)) :
  images_shape (dict_get key d) ->
  backdrop_from (key :: rest) (PDict d)
  = match first_path (dict_get key d) with
    | Some p => Ok (poster_link p)
    | None => backdrop_from rest (PDict d)
    end.
Proof.
  cbn [backdrop_from py_contains bind]. unfold first_path, images_shape.
  destruct (dict_get key d) as [v|] eqn:E; [|reflexivity].
  cbn [py_getitem]. rewrite E. cbn [bind].
  destruct v as [| | | | |[|[| | | | | |x] l]|]; try contradiction; intros _.
  - reflexivity.
  - cbn [py_truthy py_index0 bind py_get]. fold (field "file_path" x).
    destruct (py_truthy (field "file_path" x)); reflexivity.
Qed.

(** X7: [get_backdrop_url] looks at the first image of each list only: it
    returns the link of the first backdrop when that has a path, else the
    link of the first poster when that has a path, else [None]; images
    after the first are never consulted. *)
Theorem get_backdrop_url_first_images (d : list (string * pyval)) :
  images_shape (dict_get "backdrops" d) ->
  (first_path (dict_get "backdrops" d) = None ->
   images_shape (dict_get "posters" d)) ->
  get_backdrop_url (PDict d)
  = Ok (match first_path (dict_get "backdrops" d) with
        | Some p => poster_link p
        | None =>
            match first_path (dict_get "posters" d) with
            | Some q => poster_link q
            | None => PNone
            end
        end).
Proof.
  intros Hb Hp. unfold get_backdrop_url. rewrite (backdrop_step _ _ _ Hb).
  destruct (first_path (dict_get "backdrops" d)); [reflexivity|].
  rewrite (backdrop_step _ _ _ (Hp eq_refl)).
  now destruct (first_path (dict_get "posters" d)).
Qed.

Lemma get_backdrop_url_first_images_witness :
  images_shape (dict_get "backdrops" pathless_first_backdrop)
  /\ first_path (dict_get "backdrops" pathless_first_backdrop) = None
  /\ get_backdrop_url (PDict pathless_first_backdrop)
     = Ok (PStr "https://image.tmdb.org/t/p/original/poster.jpg").
Proof.
  split; [exact I|]. split; [reflexivity|].
  exact (get_backdrop_url_first_images pathless_first_backdrop I (fun _ => I)).
Defined.

(** ** [get_trailer_url] *)

Lemma first_trailer_skip (ds : list (list (string * pyval)))
    (rest : list pyval) :
  forallb (fun d => negb (is_trailer d)) ds = true ->
  first_trailer (map PDict ds ++ rest)%list = first_trailer rest.
Proof.
  induction ds as [|d ds IH]; [reflexivity|]. cbn [forallb]. intros H.
  apply andb_prop in H as [Hd Hds]. apply negb_true_iff in Hd.
  cbn [map app first_trailer py_get bind]. unfold is_trailer, field in Hd.
  destruct (py_eq_str _ "YouTube"); [|now apply IH].
  cbn [andb] in Hd. rewrite Hd. now apply IH.
Qed.

(** X8: a videos response with status 200 resolves the trailer to the
    YouTube link of the first entry whose site is ['YouTube'] and whose
    type is ['Trailer']; the entries after it are not examined, whatever
    they are; if no entry is such a trailer the result is [None]. *)
Theorem get_trailer_url_first_match (w : world) (tmdb_type : string)
    (tmdb_id : Z) (resp : response) (body : list (string * pyval))
    (results : list pyval) :
  session_get w (video_url w tmdb_type tmdb_id) = Ok resp ->
  status resp = 200 ->
  json resp = Ok (PDict body) ->
  dict_get "results" body = Some (PList results) ->
  (forall pre v post,
      results = (map PDict pre ++ PDict v :: post)%list ->
      forallb (fun d => negb (is_trailer d)) pre = true ->
      is_trailer v = true ->
      get_trailer_url w tmdb_type tmdb_id
      = Ok (PStr ("https://www.youtube.com/watch?v="
                  ++ py_str (field "key" v))))
  /\ (forall ds,
         results = map PDict ds ->
         forallb (fun d => negb (is_trailer d)) ds = true ->
         get_trailer_url w tmdb_type tmdb_id = Ok PNone).
Proof.
  intros Hget Hst Hjson Hres.
  assert (get_trailer_url w tmdb_type tmdb_id = first_trailer results) as ->.
  { unfold get_trailer_url. rewrite Hget. cbn [bind]. rewrite Hst.
    cbn [Z.eqb Pos.eqb]. rewrite Hjson. cbn [bind py_get]. now rewrite Hres. }
  split.
  - intros pre v post -> Hpre Hv. rewrite (first_trailer_skip _ _ Hpre).
    cbn [first_trailer py_get bind]. unfold is_trailer, field in Hv.
    apply andb_prop in Hv as [Hsite Htype]. now rewrite Hsite, Htype.
  - intros ds -> Hds. rewrite <- (app_nil_r (map PDict ds)).
    now rewrite (first_trailer_skip _ _ Hds).
Qed.

Lemma get_trailer_url_first_match_witness :
  session_get (dune_world (served 200 (PDict dune_videos)))
              (video_url (dune_world (served 200 (PDict dune_videos)))
                         "movie" 438631)
  = served 200 (PDict dune_videos)
  /\ get_trailer_url (dune_world (served 200 (PDict dune_videos)))
                     "movie" 438631
     = Ok (PStr "https://www.youtube.com/watch?v=n9xhJrPXop4").
Proof.
  split; [reflexivity|].
  exact (proj1 (get_trailer_url_first_match
                  (dune_world (served 200 (PDict dune_videos)))
                  "movie" 438631 _ dune_videos _
                  eq_refl eq_refl eq_refl eq_refl)
           _ _ [PInt 0] eq_refl eq_refl eq_refl).
Defined.

(** ** [format_tmdb_info] *)

(** X9: a season or an episode given as 0 is treated as not given: the
    message is the one of a call without it. *)
Theorem format_zero_is_absent (tmdb_type : string) (season episode : option Z)
    (directors_str stars_str : string) (data plot : pyval) :
  format_tmdb_info tmdb_type (Some 0) episode directors_str stars_str data plot
  = format_tmdb_info tmdb_type None episode directors_str stars_str data plot
  /\ format_tmdb_info tmdb_type season (Some 0) directors_str stars_str
                      data plot
     = format_tmdb_info tmdb_type season None directors_str stars_str
                        data plot.
Proof.
  split; [reflexivity|].
  unfold format_tmdb_info, header_of.
  destruct season as [[|p|p]|]; reflexivity.
Qed.

Lemma rstrip_idem (s : string) : rstrip (rstrip s) = rstrip s.
Proof.
  induction s as [|c s IH]; [reflexivity|]. cbn [rstrip].
  destruct (rstrip s) as [|x r] eqn:E.
  - destruct (isspace c) eqn:Ec; [reflexivity|]. cbn [rstrip]. now rewrite Ec.
  - cbn [rstrip] in *. now rewrite IH.
Qed.

Lemma lstrip_solid_app (h rest : string) :
  lstrip h = h -> h <> "" -> lstrip (h ++ rest) = h ++ rest.
Proof.
  intros Hl Hne. destruct h as [|c h]; [congruence|]. simpl in *.
  destruct (isspace c) eqn:E; [|reflexivity].
  exfalso.
  assert (String.length (lstrip h) <= String.length h)%nat as Hlen.
  { clear. induction h as [|x h IH]; simpl; [lia|].
    destruct (isspace x); simpl; lia. }
  rewrite Hl in Hlen. simpl in Hlen. lia.
Qed.

Lemma format_message_header (tmdb_type : string)
    (season episode : option Z) (directors_str stars_str : string)
    (data plot : pyval) (m : string) :
  format_tmdb_info tmdb_type season episode directors_str stars_str data plot
  = Ok m ->
  exists h rest,
    header_of tmdb_type season episode data = Ok h /\ m = h ++ rstrip rest.
Proof.
  intros Hf. destruct (format_inv _ _ _ _ _ _ _ _ Hf) as (h & g & Hh & Hg).
  exists h. destruct (above_one season || above_one episode) eqn:Hc.
  - rewrite (format_short _ _ _ directors_str stars_str _ plot h g Hc Hh Hg)
      in Hf. exists (nl2 ++ g). split; congruence.
  - rewrite (format_full _ _ _ directors_str stars_str _ plot h g Hc Hh Hg)
      in Hf.
    exists (nl2 ++ plot_section plot ++ stars_section stars_str
                ++ directors_section directors_str ++ g).
    split; congruence.
Qed.

(** X10: every message [format_tmdb_info] returns is its header followed
    by the rest of the body, is not empty, and neither starts nor ends with
    white space. *)
Theorem format_message_stripped (tmdb_type : string)
    (season episode : option Z) (directors_str stars_str : string)
    (data plot : pyval) (m : string) :
  format_tmdb_info tmdb_type season episode directors_str stars_str data plot
  = Ok m ->
  (exists h rest,
      header_of tmdb_type season episode data = Ok h /\ m = h ++ rest)
  /\ m <> ""
  /\ lstrip m = m
  /\ rstrip m = m.
Proof.
  intros Hf.
  destruct (format_message_header _ _ _ _ _ _ _ _ Hf) as (h & rest & Hh & ->).
  destruct (header_of_solid _ _ _ _ _ Hh) as [Hl [Hr Hne]].
  split; [now exists h, (rstrip rest)|]. split; [|split].
  - destruct h; [congruence | simpl; discriminate].
  - now apply lstrip_solid_app.
  - rewrite (rstrip_solid_app h _ Hr). now rewrite rstrip_idem.
Qed.

Lemma format_message_stripped_witness :
  format_tmdb_info "tv" (Some 1) (Some 2) "Denis" "Ann, Bob" show_data
                   (PStr "A plot.")
  = Ok ("<b>Show S01E02</b> is now available!" ++ nl2 ++ "#Drama")
  /\ rstrip ("<b>Show S01E02</b> is now available!" ++ nl2 ++ "#Drama")
     = "<b>Show S01E02</b> is now available!" ++ nl2 ++ "#Drama".
Proof.
  split; [reflexivity|].
  exact (proj2 (proj2 (proj2 (format_message_stripped
                                "tv" (Some 1) (Some 2) "Denis" "Ann, Bob"
                                show_data (PStr "A plot.") _ eq_refl)))).
Defined.

(** ** [get_by_id] *)

(** X11: when one of the three core requests raises, or the body of its
    response does not parse, [get_by_id] returns the error result: there
    is no partial result. *)
Theorem get_by_id_core_failure (w : world) (tmdb_type : string) (tmdb_id : Z)
    (season episode : option Z) :
  fetch_fails (session_get w (api_url w tmdb_type tmdb_id))
  \/ fetch_fails (session_get w (images_url w tmdb_type tmdb_id))
  \/ fetch_fails (session_get w (credits_url w tmdb_type tmdb_id)) ->
  exists e, get_by_id w tmdb_type tmdb_id season episode = ErrorResult e.
Proof.
  unfold get_by_id, get_by_id_body, fetch_fails. intros H.
  destruct (session_get w (api_url w tmdb_type tmdb_id)) as [r1|];
    [|now eexists].
  destruct (session_get w (images_url w tmdb_type tmdb_id)) as [r2|];
    [|now eexists].
  destruct (session_get w (credits_url w tmdb_type tmdb_id)) as [r3|];
    [|now eexists].
  cbn [bind].
  destruct (json r1); [|now eexists].
  destruct (json r2); [|now eexists].
  destruct (json r3); [|now eexists].
  cbn [is_ok] in H. destruct H as [H|[H|H]]; discriminate.
Qed.

Lemma get_by_id_core_failure_witness :
  fetch_fails (session_get
                 (movie_world (served 200 dune_detail) (Raise disconnected)
                              (served 200 (PDict [])) no_videos)
                 dune_images_url)
  /\ exists e,
       get_by_id (movie_world (served 200 dune_detail) (Raise disconnected)
                              (served 200 (PDict [])) no_videos)
                 "movie" 438631 None None
       = ErrorResult e.
Proof.
  split; [exact I|].
  exact (get_by_id_core_failure
           (movie_world (served 200 dune_detail) (Raise disconnected)
                        (served 200 (PDict [])) no_videos)
           "movie" 438631 None None (or_intror (or_introl I))).
Defined.

Lemma get_by_id_fields (w : world) (tmdb_type : string) (tmdb_id : Z)
    (season episode : option Z) (r : announcement) :
  get_by_id w tmdb_type tmdb_id season episode = Populated r ->
  exists data movie_images credits,
    get_poster_url data = Ok (poster_url r)
    /\ get_backdrop_url movie_images = Ok (backdrop_url r)
    /\ get_trailer_url w tmdb_type tmdb_id = Ok (trailer_url r)
    /\ extract_stars credits 5 = Ok (md_stars (mongo r))
    /\ md_tmdb_id (mongo r) = tmdb_id
    /\ md_tmdb_type (mongo r) = tmdb_type
    /\ md_poster_url (mongo r) = poster_url r
    /\ md_trailer_url (mongo r) = trailer_url r.
Proof.
  unfold get_by_id. destruct (get_by_id_body _ _ _ _ _) as [r'|] eqn:H;
    [|discriminate].
  intros [= ->]. unfold get_by_id_body in H.
  repeat bind_step H. injection H as <-.
  cbn [mongo poster_url backdrop_url trailer_url md_stars md_tmdb_id
       md_tmdb_type md_poster_url md_trailer_url].
  eauto 15.
Qed.

Lemma get_poster_url_shape (data p : pyval) :
  get_poster_url data = Ok p -> p = PNone \/ exists v, p = poster_link v.
Proof.
  unfold get_poster_url. intros H. bind_step H. injection H as <-.
  destruct (py_truthy a); [right; now eexists | now left].
Qed.

Lemma backdrop_from_shape (keys : list string) (movie_images b : pyval) :
  backdrop_from keys movie_images = Ok b ->
  b = PNone \/ exists v, b = poster_link v.
Proof.
  induction keys as [|key keys IH]; cbn [backdrop_from]; intros H.
  - injection H as <-. now left.
  - bind_step H. destruct a; [|now apply IH].
    bind_step H. destruct (py_truthy a); [|now apply IH].
    bind_step H. bind_step H. destruct (py_truthy a1); [|now apply IH].
    injection H as <-. right. now eexists.
Qed.

Lemma first_trailer_shape (results : list pyval) (t : pyval) :
  first_trailer results = Ok t -> t = PNone \/ exists k, t = youtube_link k.
Proof.
  induction results as [|video rest IH]; cbn [first_trailer]; intros H.
  - injection H as <-. now left.
  - bind_step H. destruct (py_eq_str a "YouTube"); [|now apply IH].
    bind_step H. destruct (py_eq_str a0 "Trailer"); [|now apply IH].
    bind_step H. injection H as <-. right. now eexists.
Qed.

Lemma get_trailer_url_shape (w : world) (tmdb_type : string) (tmdb_id : Z)
    (t : pyval) :
  get_trailer_url w tmdb_type tmdb_id = Ok t ->
  t = PNone \/ exists k, t = youtube_link k.
Proof.
  unfold get_trailer_url. intros H. bind_step H.
  destruct (status a =? 200).
  - do 3 bind_step H. now apply first_trailer_shape in H.
  - injection H as <-. now left.
Qed.

(** X12: in every populated result the record repeats the identifier and
    the type asked for, its poster and trailer links are those of the
    result itself, it lists at most five stars, and each of the poster,
    backdrop and trailer links is [None] or a link under its base
    address. *)
Theorem get_by_id_populated_invariants (w : world) (tmdb_type : string)
    (tmdb_id : Z) (season episode : option Z) (r : announcement) :
  get_by_id w tmdb_type tmdb_id season episode = Populated r ->
  md_tmdb_id (mongo r) = tmdb_id
  /\ md_tmdb_type (mongo r) = tmdb_type
  /\ md_poster_url (mongo r) = poster_url r
  /\ md_trailer_url (mongo r) = trailer_url r
  /\ (List.length (md_stars (mongo r)) <= 5)%nat
  /\ (poster_url r = PNone \/ exists v, poster_url r = poster_link v)
  /\ (backdrop_url r = PNone \/ exists v, backdrop_url r = poster_link v)
  /\ (trailer_url r = PNone \/ exists k, trailer_url r = youtube_link k).
Proof.
  intros H.
  destruct (get_by_id_fields _ _ _ _ _ _ H)
    as (data & images & credits & Hp & Hb & Ht & Hs & Hid & Hty & Hmp & Hmt).
  repeat split; try assumption.
  - now apply extract_stars_length in Hs.
  - now apply get_poster_url_shape in Hp.
  - now apply backdrop_from_shape in Hb.
  - now apply get_trailer_url_shape in Ht.
Qed.

Lemma get_by_id_populated_invariants_witness :
  exists r,
    get_by_id (dune_world no_videos) "movie" 438631 None None = Populated r
    /\ md_tmdb_id (mongo r) = 438631
    /\ md_poster_url (mongo r) = poster_url r.
Proof.
  eexists. split; [reflexivity|].
  pose proof (get_by_id_populated_invariants
                (dune_world no_videos) "movie" 438631 None None _ eq_refl)
    as (Hid & _ & Hp & _).
  split; [exact Hid | exact Hp].
Defined.

Lemma names_str_persons (ds : list (list (string * pyval))) :
  names_str (map person_of ds)
  = match ds with
    | [] => Ok "Unknown"
    | _ => py_join ", " (map (field "name") ds)
    end.
Proof.
  destruct ds as [|d ds]; [reflexivity|].
  change (map person_of (d :: ds)) with (person_of d :: map person_of ds).
  cbn [names_str].
  change (person_of d :: map person_of ds) with (map person_of (d :: ds)).
  rewrite mapM_map.
  now rewrite (mapM_ok _ (field "name")) by reflexivity.
Qed.

(** X13: the extractors let a cast member without ['name'] through, with
    the name [None], but the aggregation does not survive it: when one of
    the first five cast members has no name that is a string, joining the
    names raises and [get_by_id] returns the error result. *)
Theorem get_by_id_nameless_star (w : world) (tmdb_type : string)
    (tmdb_id : Z) (season episode : option Z) (resp : response)
    (c : list (string * pyval)) (ds : list (list (string * pyval))) :
  session_get w (credits_url w tmdb_type tmdb_id) = Ok resp ->
  json resp = Ok (PDict c) ->
  dict_get "cast" c = Some (PList (map PDict ds)) ->
  forallb is_str (map (field "name") (firstn 5 ds)) = false ->
  extract_stars (PDict c) 5 = Ok (map person_of (firstn 5 ds))
  /\ names_str (map person_of (firstn 5 ds)) = Raise TypeError
  /\ exists e, get_by_id w tmdb_type tmdb_id season episode = ErrorResult e.
Proof.
  intros Hget Hjson Hcast Hname.
  pose proof (extract_stars_dicts c ds 5 Hcast) as Hstars.
  assert (names_str (map person_of (firstn 5 ds)) = Raise TypeError) as Hjoin.
  { rewrite names_str_persons. destruct (firstn 5 ds); [discriminate|].
    unfold py_join. now rewrite (as_str_some_not _ Hname). }
  split; [exact Hstars|]. split; [exact Hjoin|].
  unfold get_by_id, get_by_id_body.
  do 2 (bind_goal; [|now eexists]). rewrite Hget. cbn [bind].
  do 2 (bind_goal; [|now eexists]). rewrite Hjson. cbn [bind].
  do 4 (bind_goal; [|now eexists]). rewrite Hstars. cbn [bind].
  bind_goal; [|now eexists]. rewrite Hjoin. now eexists.
Qed.

Lemma get_by_id_nameless_star_witness :
  forallb is_str (map (field "name") (firstn 5 nameless_cast)) = false
  /\ exists e,
       get_by_id nameless_cast_world "movie" 438631 None None = ErrorResult e.
Proof.
  split; [reflexivity|].
  exact (proj2 (proj2 (get_by_id_nameless_star
                         nameless_cast_world "movie" 438631 None None _
                         [("cast", PList (map PDict nameless_cast))]
                         nameless_cast eq_refl eq_refl eq_refl eq_refl))).
Defined.

(** ** The searches *)

Lemma search_body_fetch_fails (w : world) (url field media_type : string)
    (year : pyval) :
  fetch_fails (session_get w url) ->
  try_except (search_body w url field media_type year) PNone = PNone.
Proof.
  unfold fetch_fails, search_body.
  destruct (session_get w url) as [resp|]; [|reflexivity]. cbn [bind].
  destruct (json resp); [discriminate | reflexivity].
Qed.

Lemma search_body_no_results (w : world) (url field media_type : string)
    (year : pyval) (resp : response) (data found : pyval) :
  session_get w url = Ok resp ->
  json resp = Ok data ->
  py_get data "results" PNone = Ok found ->
  py_truthy found = false ->
  search_body w url field media_type year = Ok PNone.
Proof.
  intros Hget Hjson Hfound Hfalsy. unfold search_body.
  rewrite Hget. cbn [bind]. rewrite Hjson. cbn [bind]. rewrite Hfound.
  cbn [bind]. now rewrite Hfalsy.
Qed.

(** X14: both searches return [None], and raise nothing, when the request
    raises, when the body of the response does not parse, and when the
    answer has no ['results'] or an empty list of them, with or without a
    year. *)
Theorem search_failures_give_none (w : world) (name : string) (year : pyval) :
  (fetch_fails (session_get w (movie_search_url w name)) ->
   get_movie_by_name w name year = PNone)
  /\ (fetch_fails (session_get w (tv_search_url w name)) ->
      get_tv_by_name w name year = PNone)
  /\ (forall resp data found,
         session_get w (movie_search_url w name) = Ok resp ->
         json resp = Ok data ->
         py_get data "results" PNone = Ok found ->
         py_truthy found = false ->
         get_movie_by_name w name year = PNone)
  /\ (forall resp data found,
         session_get w (tv_search_url w name) = Ok resp ->
         json resp = Ok data ->
         py_get data "results" PNone = Ok found ->
         py_truthy found = false ->
         get_tv_by_name w name year = PNone).
Proof.
  split; [|split; [|split]].
  - apply search_body_fetch_fails.
  - apply search_body_fetch_fails.
  - intros resp data found Hget Hjson Hfound Hfalsy. unfold get_movie_by_name.
    now rewrite (search_body_no_results _ _ _ _ _ _ _ _ Hget Hjson Hfound Hfalsy).
  - intros resp data found Hget Hjson Hfound Hfalsy. unfold get_tv_by_name.
    now rewrite (search_body_no_results _ _ _ _ _ _ _ _ Hget Hjson Hfound Hfalsy).
Qed.

Lemma search_failures_give_none_witness :
  fetch_fails (session_get (searching (Raise disconnected))
                           (movie_search_url (searching (Raise disconnected))
                                             "Inception"))
  /\ get_movie_by_name (searching (Raise disconnected)) "Inception" (PInt 2010)
     = PNone
  /\ get_tv_by_name (searching (served 200 (PDict [("results", PList [])])))
                    "Inception" PNone
     = PNone.
Proof.
  split; [exact I|]. split.
  - exact (proj1 (search_failures_give_none
                    (searching (Raise disconnected)) "Inception" (PInt 2010)) I).
  - exact (proj2 (proj2 (proj2 (search_failures_give_none
                    (searching (served 200 (PDict [("results", PList [])])))
                    "Inception" PNone))) _ _ (PList [])
             eq_refl eq_refl eq_refl eq_refl).
Defined.

Lemma search_body_first (w : world) (url field media_type : string)
    (year : pyval) (resp : response) (data r id : pyval)
    (rest : list pyval) :
  session_get w url = Ok resp ->
  json resp = Ok data ->
  py_get data "results" PNone = Ok (PList (r :: rest)) ->
  py_truthy year = false ->
  search_body w url field media_type year
  = (id <- py_getitem r "id" ;;
     Ok (PDict [("id", id); ("media_type", PStr media_type)])).
Proof.
  intros Hget Hjson Hres Hyear. unfold search_body.
  rewrite Hget. cbn [bind]. rewrite Hjson. cbn [bind]. rewrite Hres.
  cbn [bind py_truthy].
  rewrite (py_getitem_of_get _ _ _ Hres) by discriminate.
  cbn [bind]. rewrite Hyear. reflexivity.
Qed.

(** X15: without a year ([None], 0 or an empty string) a search returns
    the identifier of the first result with the media type of the search,
    whatever the later results are; when the first result has no ['id']
    the search returns [None], the later results not being tried. *)
Theorem search_without_year (w : world) (name : string) (year : pyval) :
  py_truthy year = false ->
  (forall resp data r rest,
      session_get w (movie_search_url w name) = Ok resp ->
      json resp = Ok data ->
      py_get data "results" PNone = Ok (PList (r :: rest)) ->
      (forall id, py_getitem r "id" = Ok id ->
                  get_movie_by_name w name year
                  = PDict [("id", id); ("media_type", PStr "movie")])
      /\ (forall e, py_getitem r "id" = Raise e ->
                    get_movie_by_name w name year = PNone))
  /\ (forall resp data r rest,
         session_get w (tv_search_url w name) = Ok resp ->
         json resp = Ok data ->
         py_get data "results" PNone = Ok (PList (r :: rest)) ->
         (forall id, py_getitem r "id" = Ok id ->
                     get_tv_by_name w name year
                     = PDict [("id", id); ("media_type", PStr "tv")])
         /\ (forall e, py_getitem r "id" = Raise e ->
                       get_tv_by_name w name year = PNone)).
Proof.
  intros Hyear. split; intros resp data r rest Hget Hjson Hres.
  - unfold get_movie_by_name.
    rewrite (search_body_first _ _ _ _ _ _ _ r PNone rest Hget Hjson Hres Hyear).
    split; intros x Hx; now rewrite Hx.
  - unfold get_tv_by_name.
    rewrite (search_body_first _ _ _ _ _ _ _ r PNone rest Hget Hjson Hres Hyear).
    split; intros x Hx; now rewrite Hx.
Qed.

Lemma search_without_year_witness :
  py_truthy (PInt 0) = false
  /\ get_movie_by_name (searching (served 200 two_results)) "Inception" (PInt 0)
     = PDict [("id", PInt 27205); ("media_type", PStr "movie")].
Proof.
  split; [reflexivity|].
  exact (proj1 (proj1 (search_without_year
                         (searching (served 200 two_results)) "Inception"
                         (PInt 0) eq_refl)
                  _ two_results _ _ eq_refl eq_refl eq_refl)
           (PInt 27205) eq_refl).
Defined.

Lemma str_of_Z_not_empty (n : Z) : str_of_Z n <> "".
Proof.
  unfold str_of_Z. destruct (Z.to_int n) as [d|d]; cbn.
  - destruct d; discriminate.
  - discriminate.
Qed.

Lemma search_body_year_text (w : world) (url field media_type : string)
    (y y' : pyval) :
  py_truthy y = py_truthy y' ->
  py_str y = py_str y' ->
  search_body w url field media_type y = search_body w url field media_type y'.
Proof.
  intros Ht Hs. unfold search_body, year_matches. now rewrite Ht, Hs.
Qed.

(** X16: a year given as a non-zero integer and the same year given as
    its decimal text select the same result, in both searches: the filter
    compares the first four characters of the date with [str(year)]. *)
Theorem search_year_int_or_text (w : world) (name : string) (n : Z) :
  n <> 0 ->
  get_movie_by_name w name (PInt n)
  = get_movie_by_name w name (PStr (str_of_Z n))
  /\ get_tv_by_name w name (PInt n)
     = get_tv_by_name w name (PStr (str_of_Z n)).
Proof.
  intros Hn.
  assert (py_truthy (PInt n) = py_truthy (PStr (str_of_Z n))) as Ht.
  { cbn [py_truthy]. apply Z.eqb_neq in Hn. rewrite Hn.
    pose proof (str_of_Z_not_empty n) as Hs. apply String.eqb_neq in Hs.
    now rewrite Hs. }
  unfold get_movie_by_name, get_tv_by_name.
  now rewrite !(search_body_year_text w _ _ _ (PInt n) (PStr (str_of_Z n)) Ht).
Qed.

Lemma search_year_int_or_text_witness :
  2010 <> 0
  /\ get_movie_by_name (searching (served 200 two_results)) "Inception"
                       (PInt 2010)
     = get_movie_by_name (searching (served 200 two_results)) "Inception"
                         (PStr "2010").
Proof.
  split; [discriminate|].
  refine (proj1 (search_year_int_or_text
                   (searching (served 200 two_results)) "Inception" 2010 _)).
  discriminate.
Defined.

(** ** A type that is neither ['movie'] nor ['tv'] *)

Lemma get_by_id_directors (w : world) (tmdb_type : string) (tmdb_id : Z)
    (season episode : option Z) (r : announcement) :
  get_by_id w tmdb_type tmdb_id season episode = Populated r ->
  exists data credits,
    extract_directors tmdb_type data credits = Ok (md_directors (mongo r)).
Proof.
  unfold get_by_id. destruct (get_by_id_body _ _ _ _ _) as [r'|] eqn:H;
    [|discriminate].
  intros [= ->]. unfold get_by_id_body in H.
  repeat bind_step H. injection H as <-. cbn [mongo md_directors]. eauto.
Qed.

(** X17: [get_by_id] does not reject a type that is neither ['movie'] nor
    ['tv']: when the requests answer, the result is populated as for any
    title, its message starts with the header [Now Available!] and its
    record has no director. *)
Theorem get_by_id_other_type (w : world) (tmdb_type : string) (tmdb_id : Z)
    (season episode : option Z) (r : announcement) :
  tmdb_type <> "movie" -> tmdb_type <> "tv" ->
  get_by_id w tmdb_type tmdb_id season episode = Populated r ->
  md_directors (mongo r) = []
  /\ exists rest, message r = "Now Available!" ++ rest.
Proof.
  intros Hm Ht Hr. apply String.eqb_neq in Hm, Ht. split.
  - destruct (get_by_id_directors _ _ _ _ _ _ Hr) as (data & credits & Hd).
    unfold extract_directors in Hd. rewrite Hm, Ht in Hd. congruence.
  - destruct (get_by_id_inv _ _ _ _ _ _ Hr)
      as (data & plot & ds & ss & _ & _ & Hf).
    destruct (format_message_header _ _ _ _ _ _ _ _ Hf) as (h & rest & Hh & ->).
    unfold header_of in Hh. rewrite Hm, Ht in Hh. injection Hh as <-.
    now exists (rstrip rest).
Qed.

Lemma get_by_id_other_type_witness :
  exists r,
    get_by_id person_world "person" 287 None None = Populated r
    /\ md_directors (mongo r) = []
    /\ exists rest, message r = "Now Available!" ++ rest.
Proof.
  eexists. split; [reflexivity|].
  refine (get_by_id_other_type person_world "person" 287 None None _ _ _ eq_refl);
    discriminate.
Defined.
